(** * The ITS-S identity manager of [itss.py]

    A shallow embedding of class [ITSS] (key, enrollment credential and
    authorization ticket; enrollment and authorization requests; the
    certificate resolver) and of the inbound handler [datagram_received],
    followed by the properties of the specification that concern them.

    Python objects and the outside world are explicit: a method is a
    function from a [World] (the [ITSS] object, the files under the
    storage directory, the clock, the entropy consumed so far and the
    trace of I/O performed) to an outcome and the world it leaves.  An
    outcome is a returned value or a raised exception. *)

From Stdlib Require Import ZArith Strings.Byte Strings.Ascii Strings.String.
From stdpp Require Import gmap strings list.

Open Scope Z_scope.

(** ** Bytes, hexadecimal text and paths *)

Abbreviation bytes := (list byte).

#[global] Instance byte_eq_dec : EqDecision byte := Byte.byte_eq_dec.

#[global] Instance byte_countable : Countable byte :=
  inj_countable Byte.to_N Byte.of_N Byte.of_to_N.

(** [b'...'] literals of the source. *)
Definition blit (s : string) : bytes := String.list_byte_of_string s.

(** [struct.pack(">B", n)] for [0 <= n < 256]: the one byte [n]. *)
Definition pack_B (n : N) : bytes :=
  match Byte.of_N n with
  | Some x => [x]
  | None => []
  end.

(** Python's slice [x[1:]]: everything but the first byte, empty on empty. *)
Definition drop1 (x : bytes) : bytes := tail x.

Definition hex_digit (n : N) : ascii :=
  match n with
  | 0 => "0" | 1 => "1" | 2 => "2" | 3 => "3" | 4 => "4" | 5 => "5"
  | 6 => "6" | 7 => "7" | 8 => "8" | 9 => "9" | 10 => "a" | 11 => "b"
  | 12 => "c" | 13 => "d" | 14 => "e" | _ => "f"
  end%N%char.

(** [bytes.hex()]: two lower-case digits per byte, high nibble first. *)
Fixpoint hex (x : bytes) : string :=
  match x with
  | [] => ""
  | c :: rest =>
      let n := Byte.to_N c in
      String (hex_digit (N.shiftr n 4))
        (String (hex_digit (N.land n 15)) (hex rest))
  end.

Definition startswith_sep (s : string) : bool :=
  match s with
  | String "/" _ => true
  | _ => false
  end.

Fixpoint endswith_sep (s : string) : bool :=
  match s with
  | "" => false
  | String c "" => if Ascii.eqb c "/" then true else false
  | String _ rest => endswith_sep rest
  end.

(** One step of [posixpath.join]: an absolute component restarts the path,
    an empty path or one ending in the separator takes the component as is,
    anything else takes a separator first. *)
Definition join2 (path comp : string) : string :=
  if startswith_sep comp then comp
  else if (String.eqb path "" || endswith_sep path)%bool then path +:+ comp
  else path +:+ "/" +:+ comp.

(** [os.path.join(a, *p)]. *)
Definition path_join (a : string) (p : list string) : string :=
  fold_left join2 p a.
#[global] Arguments path_join : simpl never.

(** ** Exceptions and outcomes *)

Inductive exn : Type :=
| AssertionError
| RuntimeError (msg : string)
| FileNotFoundError (path : string)
| KeyError
| AttributeError            (* a method called on [None] *)
| ValueError                (* [load_der_private_key] rejects its input *)
| InternalError             (* [backend.openssl_assert] fails *)
| CertificateError          (* the certificate constructor rejects its input *)
| MessageError              (* a secure message does not parse or verify *)
| DecodeError               (* the codec rejects a response *)
| RequestException          (* the HTTP transport fails *)
| SystemExit (code : Z).    (* [sys.exit] *)

(** [isinstance(e, Exception)]: [SystemExit] derives from [BaseException]
    only, every other class above derives from [Exception]. *)
Definition is_Exception (e : exn) : bool :=
  match e with
  | SystemExit _ => false
  | _ => true
  end.

Definition is_FileNotFoundError (e : exn) : bool :=
  match e with
  | FileNotFoundError _ => true
  | _ => false
  end.

Definition is_KeyError (e : exn) : bool :=
  match e with
  | KeyError => true
  | _ => false
  end.

Inductive outcome (A : Type) : Type :=
| Return (a : A)
| Raise (e : exn).
Arguments Return {A} a.
Arguments Raise {A} e.

(** ** Protocol records

    The dictionaries that [enroll] and [authorize] build inline, one record
    per dictionary, fields in the order of the source. *)

Record SignerIdentifier : Type := {
  si_type : Z;
  si_digest : bytes;
  si_id : bytes
}.

Record PsidSspArray : Type := {
  psa_type : Z;
  permissions_list : list Z
}.

Record GeographicRegion : Type := { region_type : Z }.

Record EnrolCertSpecificData : Type := {
  eaId : string;
  permittedSubjectTypes : Z;
  ecs_permissions : PsidSspArray;
  ecs_region : GeographicRegion
}.

(** ['public-key']: the type name, the tagged X and, when uncompressed, the
    tagged Y. *)
Record EccPublicKey : Type := {
  pk_type : string;
  pk_x : string * Z;
  pk_y : option (string * Z)
}.

Record PublicKey : Type := {
  algorithm : Z;
  public_key : EccPublicKey
}.

Record ToBeSignedEnrolmentCertificateRequest : Type := {
  versionAndType : Z;
  requestTime : Z;
  subjectType : Z;
  cf : bytes * Z;
  enrolCertSpecificData : EnrolCertSpecificData;
  expiration : Z;
  verificationKey : PublicKey;
  responseEncryptionKey : PublicKey
}.

Record AuthCertSpecificData : Type := {
  additional_data : bytes;
  acs_permissions : PsidSspArray;
  acs_region : GeographicRegion
}.

Record AnonRequest : Type := {
  ar_versionAndType : Z;
  ar_requestTime : Z;
  ar_subjectType : Z;
  ar_cf : bytes * Z;
  authCertSpecificData : AuthCertSpecificData;
  ar_responseEncryptionKey : PublicKey
}.

(** The choice [('anonRequest', {...})], the one variant the source uses. *)
Inductive AuthCertRequest : Type :=
| anonRequest (r : AnonRequest).

Record EccPoint : Type := {
  pt_type : string;
  pt_x : string * Z
}.

Record Signature : Type := {
  sig_r : EccPoint;
  sig_s : string * Z
}.

Record EnrolmentRequest : Type := {
  signerEnrolRequest : SignerIdentifier;
  enrolCertRequest : ToBeSignedEnrolmentCertificateRequest
}.

Record AuthorizationRequest : Type := {
  signerAuthRequest : SignerIdentifier;
  authCertRequest : AuthCertRequest
}.

(** A decoded response, as far as the source reads it: the name of the
    chosen variant ([Response[0]]) and, where the variant carries one, the
    value at [Response[1]['signedCertChain']['rootCertificate']]. *)
Record Response : Type := {
  variant : string;
  rootCertificate : option bytes
}.

(** Modelled from the spec: the certificate object of package [itss] (not
    under src/), "exposing a digest, raw encoded bytes"; these are the two
    attributes the source reads. *)
Record Certificate : Type := {
  Data : bytes;
  Digest : bytes
}.

#[global] Instance Certificate_eq_dec : EqDecision Certificate.
Proof. solve_decision. Defined.

(** ** External collaborators

    What the source calls and does not define: the [cryptography] key
    objects, the [asn1tools] codec with the helpers of package [itss], the
    [requests] transport and the secure-message envelope.  A constructor or
    call that can fail answers [None] where the Python raises. *)

Class SigningBackend : Type := {
  PrivKey : Type;
  ENGINE : Type;
  (** [ec.generate_private_key(SECP256R1(), backend)], by the entropy drawn *)
  ec_generate_private_key : nat -> PrivKey;
  (** [key.public_key().public_numbers()]: the affine [(x, y)] *)
  public_numbers : PrivKey -> Z * Z;
  (** [decode_dss_signature(key.sign(data, ECDSA(SHA256())))]: [(r, s)] *)
  ecdsa_sign : PrivKey -> nat -> bytes -> Z * Z;
  (** [key.private_bytes(DER, PKCS8, BestAvailableEncryption(password))] *)
  private_bytes : PrivKey -> string -> nat -> bytes;
  (** [load_der_private_key(data, password, backend)] *)
  load_der_private_key : bytes -> string -> option PrivKey;
  (** [ENGINE_load_private_key(engine, uri, NULL, NULL)] and the conversion
      of the handle to a key; [None] for the NULL handle *)
  ENGINE_load_private_key : ENGINE -> string -> option PrivKey
}.

Class CodecLayer : Type := {
  encode_SignerIdentifier : SignerIdentifier -> bytes;
  encode_ToBeSignedEnrolmentCertificateRequest :
    ToBeSignedEnrolmentCertificateRequest -> bytes;
  encode_AuthCertRequest : AuthCertRequest -> bytes;
  encode_Signature : Signature -> bytes;
  decode_EnrolmentResponse : bytes -> option Response;
  decode_AuthorizationResponse : bytes -> option Response;
  (** [itss.encode_der_length] and [itss.encode_der_SEQUENCE] *)
  encode_der_length : nat -> bytes;
  encode_der_SEQUENCE : bytes -> bytes;
  (** [itss.CITS103097v121Certificate(data)] *)
  CITS103097v121Certificate : bytes -> option Certificate
}.

Class Transport : Type := {
  (** [requests.put(url, data=body).content] *)
  http_put : string -> bytes -> option bytes;
  (** [requests.get(url).content] *)
  http_get : string -> option bytes
}.

Class SecureMessaging : Type := {
  SecureMessage : Type;
  (** [itss.CITS103097v121SecureMessage(data)] *)
  CITS103097v121SecureMessage : bytes -> option SecureMessage;
  Payload : SecureMessage -> bytes;
  signer_digest : SecureMessage -> option bytes;
  signature_valid : SecureMessage -> Certificate -> bool
}.

(** ** The world *)

(** What a run does that an observer outside the process can see or count:
    file operations (attempted opens included), HTTP requests, signing
    operations and printed lines. *)
Inductive event : Type :=
| FileRead (path : string)
| FileWrite (path : string) (data : bytes)
| FileUnlink (path : string)
| HttpPut (url : string) (body : bytes)
| HttpGet (url : string)
| Sign (message : bytes)
| Print (line : string)
| PPrint (r : Response)
| PrintExc (e : exn)
| PrintVerified (payload : bytes) (signer : Certificate).

Definition is_Sign (ev : event) : bool :=
  match ev with
  | Sign _ => true
  | _ => false
  end.

Section Model.

Context {SB : SigningBackend} {CL : CodecLayer} {TR : Transport}
        {SM : SecureMessaging}.

(** The attributes of an [ITSS] instance. *)
Record ITSS : Type := {
  PrivateKey : option PrivKey;
  EC : option Certificate;
  AT : option Certificate;
  Directory : string;
  AA_url : string;
  EA_url : string;
  Certs : gmap bytes Certificate;
  Engine : option ENGINE;
  P11URI : option string
}.

(** The object, the regular files by path (the directories the source
    writes into are taken to exist and to be writable), the clock in whole
    seconds since 2004-01-01 UTC, the entropy drawn so far, and the events
    so far, oldest first. *)
Record World : Type := {
  obj : ITSS;
  fs : gmap string bytes;
  clock : Z;
  entropy : nat;
  trace : list event
}.

Definition with_obj (o : ITSS) (w : World) : World :=
  {| obj := o; fs := fs w; clock := clock w; entropy := entropy w;
     trace := trace w |}.

Definition with_fs (f : gmap string bytes) (w : World) : World :=
  {| obj := obj w; fs := f; clock := clock w; entropy := entropy w;
     trace := trace w |}.

Definition with_trace (t : list event) (w : World) : World :=
  {| obj := obj w; fs := fs w; clock := clock w; entropy := entropy w;
     trace := t |}.

Definition with_entropy (n : nat) (w : World) : World :=
  {| obj := obj w; fs := fs w; clock := clock w; entropy := n;
     trace := trace w |}.

Definition with_PrivateKey (k : option PrivKey) (o : ITSS) : ITSS :=
  {| PrivateKey := k; EC := EC o; AT := AT o; Directory := Directory o;
     AA_url := AA_url o; EA_url := EA_url o; Certs := Certs o;
     Engine := Engine o; P11URI := P11URI o |}.

Definition with_EC (c : option Certificate) (o : ITSS) : ITSS :=
  {| PrivateKey := PrivateKey o; EC := c; AT := AT o;
     Directory := Directory o; AA_url := AA_url o; EA_url := EA_url o;
     Certs := Certs o; Engine := Engine o; P11URI := P11URI o |}.

Definition with_AT (c : option Certificate) (o : ITSS) : ITSS :=
  {| PrivateKey := PrivateKey o; EC := EC o; AT := c;
     Directory := Directory o; AA_url := AA_url o; EA_url := EA_url o;
     Certs := Certs o; Engine := Engine o; P11URI := P11URI o |}.

Definition with_Certs (m : gmap bytes Certificate) (o : ITSS) : ITSS :=
  {| PrivateKey := PrivateKey o; EC := EC o; AT := AT o;
     Directory := Directory o; AA_url := AA_url o; EA_url := EA_url o;
     Certs := m; Engine := Engine o; P11URI := P11URI o |}.

Definition with_P11URI (u : option string) (o : ITSS) : ITSS :=
  {| PrivateKey := PrivateKey o; EC := EC o; AT := AT o;
     Directory := Directory o; AA_url := AA_url o; EA_url := EA_url o;
     Certs := Certs o; Engine := Engine o; P11URI := u |}.

(** ** Computations: state passing with exceptions *)

Definition M (A : Type) : Type := World -> outcome A * World.

Definition ret {A} (a : A) : M A := fun w => (Return a, w).

Definition raise {A} (e : exn) : M A := fun w => (Raise e, w).

Definition bind {A B} (m : M A) (k : A -> M B) : M B :=
  fun w =>
    match m w with
    | (Return a, w') => k a w'
    | (Raise e, w') => (Raise e, w')
    end.

(** [try: body / except <catches> as e: handler e]. *)
Definition try_except {A} (body : M A) (catches : exn -> bool)
    (handler : exn -> M A) : M A :=
  fun w =>
    match body w with
    | (Return a, w') => (Return a, w')
    | (Raise e, w') => if catches e then handler e w' else (Raise e, w')
    end.

(** [try: x = body / except <catches>: handler / else: orelse x]: the [else]
    suite runs outside the guard. *)
Definition try_except_else {A B} (body : M A) (catches : exn -> bool)
    (handler : exn -> M B) (orelse : A -> M B) : M B :=
  fun w =>
    match body w with
    | (Return a, w') => orelse a w'
    | (Raise e, w') => if catches e then handler e w' else (Raise e, w')
    end.

Definition except_all (e : exn) : bool := true.

End Model.

Declare Scope py_scope.
Delimit Scope py_scope with py.
Notation "x <- c1 ;; c2" := (bind c1 (fun x => c2))
  (at level 100, c1 at next level, right associativity) : py_scope.
Notation "c1 ;; c2" := (bind c1 (fun _ => c2))
  (at level 100, right associativity) : py_scope.

Section Primitives.

Context {SB : SigningBackend} {CL : CodecLayer} {TR : Transport}
        {SM : SecureMessaging}.

Local Open Scope py_scope.

Definition get_self : M ITSS := fun w => (Return (obj w), w).

Definition update_self (f : ITSS -> ITSS) : M unit :=
  fun w => (Return tt, with_obj (f (obj w)) w).

Definition emit (ev : event) : M unit :=
  fun w => (Return tt, with_trace (trace w ++ [ev]) w).

(** [print(line)]. *)
Definition print (line : string) : M unit := emit (Print line).

(** [assert(c)]. *)
Definition assert_ (c : bool) : M unit :=
  if c then ret tt else raise AssertionError.

(** A value taken from an [Optional]: the attribute access or call of the
    source on [None] raises. *)
Definition unwrap {A} (o : option A) (e : exn) : M A :=
  match o with
  | Some a => ret a
  | None => raise e
  end.

(** One draw of entropy. *)
Definition draw : M nat :=
  fun w => (Return (entropy w), with_entropy (S (entropy w)) w).

(** [int((datetime.datetime.utcnow() - datetime.datetime(2004,1,1)).total_seconds())]. *)
Definition utcnow_since_2004 : M Z := fun w => (Return (clock w), w).

(** [open(path, 'rb').read()]. *)
Definition open_read (path : string) : M bytes :=
  emit (FileRead path) ;;
  fun w =>
    match fs w !! path with
    | Some data => (Return data, w)
    | None => (Raise (FileNotFoundError path), w)
    end.

(** [open(path, 'wb').write(data)]. *)
Definition open_write (path : string) (data : bytes) : M unit :=
  emit (FileWrite path data) ;;
  fun w => (Return tt, with_fs (<[path := data]> (fs w)) w).

(** [os.unlink(path)]. *)
Definition os_unlink (path : string) : M unit :=
  emit (FileUnlink path) ;;
  fun w =>
    match fs w !! path with
    | Some _ => (Return tt, with_fs (delete path (fs w)) w)
    | None => (Raise (FileNotFoundError path), w)
    end.

(** [requests.put(url, data=body)], answering [r.content]. *)
Definition requests_put (url : string) (body : bytes) : M bytes :=
  emit (HttpPut url body) ;;
  unwrap (http_put url body) RequestException.

(** [requests.get(url)], answering [r.content]. *)
Definition requests_get (url : string) : M bytes :=
  emit (HttpGet url) ;;
  unwrap (http_get url) RequestException.

(** [key.sign(message, ECDSA(SHA256()))] followed by
    [decode_dss_signature]. *)
Definition sign (key : PrivKey) (message : bytes) : M (Z * Z) :=
  emit (Sign message) ;;
  n <- draw ;;
  ret (ecdsa_sign key n message).

(** [sys.exit(code)]. *)
Definition sys_exit {A} (code : Z) : M A := raise (SystemExit code).

(** [d[k]] on a dict. *)
Definition getitem (d : gmap bytes Certificate) (k : bytes) : M Certificate :=
  unwrap (d !! k) KeyError.

(** [itss.CITS103097v121Certificate(data)]. *)
Definition new_Certificate (data : bytes) : M Certificate :=
  unwrap (CITS103097v121Certificate data) CertificateError.

Definition password : string := "strong-and-secret :-)".

End Primitives.

(** ** The methods of [ITSS] *)

Section Methods.

Context {SB : SigningBackend} {CL : CodecLayer} {TR : Transport}
        {SM : SecureMessaging}.

Local Open Scope py_scope.

(** [ITSS.generate_private_key]. *)
Definition generate_private_key : M unit :=
  self <- get_self ;;
  match Engine self with
  | None =>
      n <- draw ;;
      update_self (with_PrivateKey (Some (ec_generate_private_key n)))
  | Some _ => raise (RuntimeError "Not implemented yet!")
  end ;;
  update_self (with_EC None) ;;
  update_self (with_AT None).

(** The dictionary [EnrolmentRequest] of [enroll], as built before signing:
    [vx], [vy] are the public numbers of the signing key and [rx] the X of
    the one-time response encryption key. *)
Definition EnrolmentRequest_literal (requestTime vx vy rx : Z)
    : EnrolmentRequest :=
  {| signerEnrolRequest :=
       {| si_type := 3;
          si_digest := blit "12345678";
          si_id := blit "This is the identification of the signer" |};
     enrolCertRequest :=
       {| versionAndType := 2;
          requestTime := requestTime;
          subjectType := 3;
          cf := (blit (String zero ""), 0);
          enrolCertSpecificData :=
            {| eaId := "EAName";
               permittedSubjectTypes := 0;
               ecs_permissions := {| psa_type := 1; permissions_list := [] |};
               ecs_region := {| region_type := 0 |} |};
          expiration := requestTime;
          verificationKey :=
            {| algorithm := 1;
               public_key :=
                 {| pk_type := "uncompressed";
                    pk_x := ("ecdsa-nistp256-with-sha256-X", vx);
                    pk_y := Some ("ecdsa-nistp256-with-sha256-Y", vy) |} |};
          responseEncryptionKey :=
            {| algorithm := 1;
               public_key :=
                 {| pk_type := "compressedLsbY0";
                    pk_x := ("ecdsa-nistp256-with-sha256-X", rx);
                    pk_y := None |} |} |} |}.

(** The dictionary stored under ['signature']. *)
Definition Signature_literal (r s : Z) : Signature :=
  {| sig_r := {| pt_type := "xCoordinateOnly";
                 pt_x := ("ecdsa-nistp256-with-sha256-X", r) |};
     sig_s := ("ecdsa-nistp256-with-sha256-s", s) |}.

(** [ITSS.enroll]. *)
Definition enroll : M unit :=
  self <- get_self ;;
  PrivateKey_ <- unwrap (PrivateKey self) AttributeError ;;
  let verification_public_numbers := public_numbers PrivateKey_ in
  n <- draw ;;
  let response_encryption_private_key := ec_generate_private_key n in
  let response_encryption_public_numbers :=
    public_numbers response_encryption_private_key in
  requestTime <- utcnow_since_2004 ;;
  let expiration := requestTime + 3600 in
  let EnrolmentRequest :=
    EnrolmentRequest_literal requestTime
      (fst verification_public_numbers) (snd verification_public_numbers)
      (fst response_encryption_public_numbers) in
  let encoded_er := [] in
  let encoded_er := encoded_er ++
    (pack_B 0xa0 ++
     drop1 (encode_SignerIdentifier (signerEnrolRequest EnrolmentRequest))) in
  let encoded_er := encoded_er ++
    (pack_B 0xa1 ++
     drop1 (encode_ToBeSignedEnrolmentCertificateRequest
              (enrolCertRequest EnrolmentRequest))) in
  rs <- sign PrivateKey_ encoded_er ;;
  let signature := Signature_literal (fst rs) (snd rs) in
  let encoded_er := encoded_er ++
    (pack_B 0xa2 ++ drop1 (encode_Signature signature)) in
  let encoded_er := encode_der_SEQUENCE encoded_er in
  content <-
    requests_put (EA_url self +:+ "/cits/ts_102941_v111/ea/enroll") encoded_er ;;
  EnrolmentResponse <- unwrap (decode_EnrolmentResponse content) DecodeError ;;
  (if negb (String.eqb (variant EnrolmentResponse) "successfulEnrolment")
   then print "Enrollment failed!" ;;
        emit (PPrint EnrolmentResponse) ;;
        sys_exit 1
   else ret tt) ;;
  print "Enrollment finished successfuly." ;;
  root <- unwrap (rootCertificate EnrolmentResponse) KeyError ;;
  cert <- new_Certificate root ;;
  update_self (with_EC (Some cert)).

(** The dictionary [AuthorizationRequest] of [authorize], as built before
    signing. *)
Definition AuthorizationRequest_literal (requestTime : Z) (EC_Digest : bytes)
    : AuthorizationRequest :=
  {| signerAuthRequest :=
       {| si_type := 3; si_digest := EC_Digest; si_id := blit "" |};
     authCertRequest :=
       anonRequest
         {| ar_versionAndType := 2;
            ar_requestTime := requestTime;
            ar_subjectType := 0;
            ar_cf := (blit (String zero ""), 0);
            authCertSpecificData :=
              {| additional_data := blit "ahoj";
                 acs_permissions :=
                   {| psa_type := 1; permissions_list := [] |};
                 acs_region := {| region_type := 0 |} |};
            ar_responseEncryptionKey :=
              {| algorithm := 1;
                 public_key :=
                   {| pk_type := "compressedLsbY0";
                      pk_x := ("ecdsa-nistp256-with-sha256-X", 0);
                      pk_y := None |} |} |} |}.

(** [ITSS.authorize]. *)
Definition authorize : M unit :=
  self <- get_self ;;
  requestTime <- utcnow_since_2004 ;;
  let expiration := requestTime + 3600 in
  EC_ <- unwrap (EC self) AttributeError ;;
  let AuthorizationRequest :=
    AuthorizationRequest_literal requestTime (Digest EC_) in
  let encoded_ar := [] in
  let encoded_ar := encoded_ar ++
    (pack_B 0xa0 ++
     drop1 (encode_SignerIdentifier
              (signerAuthRequest AuthorizationRequest))) in
  let acr :=
    pack_B 0xa0 ++
    drop1 (encode_AuthCertRequest (authCertRequest AuthorizationRequest)) in
  let encoded_ar := encoded_ar ++
    (pack_B 0xa1 ++ encode_der_length (length acr) ++ acr) in
  PrivateKey_ <- unwrap (PrivateKey self) AttributeError ;;
  rs <- sign PrivateKey_ encoded_ar ;;
  let signature := Signature_literal (fst rs) (snd rs) in
  let encoded_ar := encoded_ar ++
    (pack_B 0xa2 ++ drop1 (encode_Signature signature)) in
  let encoded_ar := encode_der_SEQUENCE encoded_ar in
  content <-
    requests_put (AA_url self +:+ "/cits/ts_102941_v111/aa/approve")
      encoded_ar ;;
  AuthorizationResponse <-
    unwrap (decode_AuthorizationResponse content) DecodeError ;;
  (if negb (String.eqb (variant AuthorizationResponse)
              "successfulExplicitAuthorization"
            || String.eqb (variant AuthorizationResponse)
                 "successfulImplicitAuthorization")
   then print "Authorization failed!" ;;
        emit (PPrint AuthorizationResponse) ;;
        sys_exit 1
   else ret tt) ;;
  print "Authorization ticket obtained successfuly." ;;
  root <- unwrap (rootCertificate AuthorizationResponse) KeyError ;;
  cert <- new_Certificate root ;;
  update_self (with_AT (Some cert)).

(** [ITSS.store]. *)
Definition store : M unit :=
  self <- get_self ;;
  match Engine self with
  | Some _ => ret tt
  | None =>
      PrivateKey_ <- unwrap (PrivateKey self) AttributeError ;;
      n <- draw ;;
      let x := private_bytes PrivateKey_ password n in
      open_write (path_join (Directory self) ["itss.key"]) x
  end ;;
  match EC self with
  | Some EC_ => open_write (path_join (Directory self) ["itss.ec"]) (Data EC_)
  | None => os_unlink (path_join (Directory self) ["itss.ec"])
  end ;;
  match AT self with
  | Some AT_ => open_write (path_join (Directory self) ["itss.at"]) (Data AT_)
  | None => os_unlink (path_join (Directory self) ["itss.at"])
  end.

Definition is_None {A} (o : option A) : bool :=
  match o with
  | None => true
  | Some _ => false
  end.

(** The part of [ITSS.load] that restores the key; [false] stands for the
    [return False] of the handler. *)
Definition load_key : M bool :=
  self <- get_self ;;
  match Engine self with
  | Some engine =>
      let p11uri := "pkcs11:object=test-key;type=private" in
      pkey <- unwrap (ENGINE_load_private_key engine p11uri) InternalError ;;
      update_self (with_P11URI (Some p11uri)) ;;
      update_self (with_PrivateKey (Some pkey)) ;;
      ret true
  | None =>
      try_except
        (data <- open_read (path_join (Directory self) ["itss.key"]) ;;
         key <- unwrap (load_der_private_key data password) ValueError ;;
         update_self (with_PrivateKey (Some key)) ;;
         ret true)
        except_all
        (fun _ => ret false)
  end.

(** The part of [ITSS.load] that restores one certificate from [name]. *)
Definition load_certificate (name : string)
    (assign : option Certificate -> ITSS -> ITSS) : M unit :=
  self <- get_self ;;
  try_except_else
    (open_read (path_join (Directory self) [name]))
    is_FileNotFoundError
    (fun _ => ret tt)
    (fun raw =>
       cert <- new_Certificate raw ;;
       update_self (assign (Some cert))).

(** [ITSS.load]. *)
Definition load : M bool :=
  self <- get_self ;;
  assert_ (is_None (PrivateKey self)) ;;
  assert_ (is_None (EC self)) ;;
  assert_ (is_None (AT self)) ;;
  loaded <- load_key ;;
  if loaded then
    load_certificate "itss.ec" with_EC ;;
    load_certificate "itss.at" with_AT ;;
    ret true
  else ret false.

(** [ITSS.store_certificate]. *)
Definition store_certificate (certificate : Certificate) : M unit :=
  self <- get_self ;;
  let cert_fname :=
    path_join (Directory self) ["certs"; hex (Digest certificate) +:+ ".cert"] in
  open_write cert_fname (Data certificate).

(** [ITSS.get_certificate_by_digest]. *)
Definition get_certificate_by_digest (digest : bytes) : M Certificate :=
  self <- get_self ;;
  cached <-
    try_except
      (cert <- getitem (Certs self) digest ;; ret (Some cert))
      is_KeyError
      (fun _ => ret None) ;;
  match cached with
  | Some cert => ret cert
  | None =>
      let cert_fname :=
        path_join (Directory self) ["certs"; hex digest +:+ ".cert"] in
      cert <-
        try_except
          (data <- open_read cert_fname ;;
           new_Certificate data)
          is_FileNotFoundError
          (fun _ =>
             content <-
               requests_get (AA_url self +:+ "/cits/digest/" +:+ hex digest) ;;
             cert <- new_Certificate content ;;
             store_certificate cert ;;
             ret cert) ;;
      update_self (fun o => with_Certs (<[digest := cert]> (Certs o)) o) ;;
      ret cert
  end.

(** ** The inbound handler of [main] *)

(** Modelled from the spec: [msg.verify(itss_obj)] of package [itss] (not
    under src/): it "extracts the claimed signer digest, resolves the signer
    Certificate via CertificateResolver (possibly incurring network I/O),
    verifies the signature against the resolved certificate", and answers
    the signer certificate. *)
Definition verify (msg : SecureMessage) : M Certificate :=
  digest <- unwrap (signer_digest msg) MessageError ;;
  signer_certificate <- get_certificate_by_digest digest ;;
  if signature_valid msg signer_certificate
  then ret signer_certificate
  else raise MessageError.

(** The [try] suite of [MyG5Simulator.datagram_received]. *)
Definition process_datagram (data : bytes) : M unit :=
  msg <- unwrap (CITS103097v121SecureMessage data) MessageError ;;
  signer_certificate <- verify msg ;;
  emit (PrintVerified (Payload msg) signer_certificate).

(** The [except Exception as e] suite. *)
Definition report_error (e : exn) : M unit :=
  print "Error when processing message" ;;
  emit (PrintExc e).

(** [MyG5Simulator.datagram_received]; [addr] is not read. *)
Definition datagram_received (data : bytes) : M unit :=
  try_except (process_datagram data) is_Exception report_error.

End Methods.

(** ** A small instance of the collaborators

    Simple stand-ins for the collaborators, on which the methods can be run:
    keys are numbers, a certificate is any non-empty byte string and its
    digest is its first byte, lengths below 128 are one byte. *)

Module Stub.

#[local] Instance backend : SigningBackend := {|
  PrivKey := Z;
  ENGINE := unit;
  ec_generate_private_key := fun n => Z.of_nat n + 1;
  public_numbers := fun k => (k, k + 1);
  ecdsa_sign := fun k n message => (k + Z.of_nat n, Z.of_nat (length message));
  private_bytes := fun k _ _ => pack_B (Z.to_N k);
  load_der_private_key := fun data _ =>
    match data with
    | [c] => Some (Z.of_N (Byte.to_N c))
    | _ => None
    end;
  ENGINE_load_private_key := fun _ _ => None
|}.

Definition byte_of_Z (z : Z) : bytes := pack_B (Z.to_N (z mod 256)).

#[local] Instance codec : CodecLayer := {|
  encode_SignerIdentifier := fun sid =>
    x30 :: si_digest sid ++ si_id sid;
  encode_ToBeSignedEnrolmentCertificateRequest := fun tbs =>
    x30 :: byte_of_Z (requestTime tbs) ++ byte_of_Z (expiration tbs);
  encode_AuthCertRequest := fun acr =>
    match acr with
    | anonRequest r => x30 :: byte_of_Z (ar_requestTime r)
    end;
  encode_Signature := fun sg =>
    x30 :: byte_of_Z (snd (pt_x (sig_r sg))) ++ byte_of_Z (snd (sig_s sg));
  decode_EnrolmentResponse := fun content =>
    match content with
    | [] => None
    | _ => Some {| variant := "successfulEnrolment";
                   rootCertificate := Some content |}
    end;
  decode_AuthorizationResponse := fun content =>
    match content with
    | [] => None
    | _ => Some {| variant := "successfulExplicitAuthorization";
                   rootCertificate := Some content |}
    end;
  encode_der_length := fun n => pack_B (N.of_nat n);
  encode_der_SEQUENCE := fun x => x30 :: pack_B (N.of_nat (length x)) ++ x;
  CITS103097v121Certificate := fun data =>
    match data with
    | [] => None
    | c :: _ => Some {| Data := data; Digest := [c] |}
    end
|}.

#[local] Instance transport : Transport := {|
  http_put := fun _ _ => Some (blit "issued");
  http_get := fun _ => Some (blit "remote")
|}.

#[local] Instance messaging : SecureMessaging := {|
  SecureMessage := bytes;
  CITS103097v121SecureMessage := fun data =>
    match data with
    | [] => None
    | _ => Some data
    end;
  Payload := fun m => m;
  signer_digest := fun m => Some (take 1 m);
  signature_valid := fun _ _ => true
|}.

Definition cert_a : Certificate := {| Data := blit "a-cert"; Digest := blit "a" |}.
Definition cert_b : Certificate := {| Data := blit "b-cert"; Digest := blit "b" |}.

(** A software-key instance in directory [d], as [__init__] leaves the
    attributes, but for [Engine]. *)
Definition fresh_obj : ITSS :=
  {| PrivateKey := None; EC := None; AT := None; Directory := "d";
     AA_url := "http://aa"; EA_url := "http://ea"; Certs := ∅;
     Engine := None; P11URI := None |}.

Definition world_of (o : ITSS) (files : gmap string bytes) : World :=
  {| obj := o; fs := files; clock := 1000; entropy := 0; trace := [] |}.

(** An instance holding a key and both certificates. *)
Definition full_obj : ITSS :=
  with_AT (Some cert_b) (with_EC (Some cert_a) (with_PrivateKey (Some 7) fresh_obj)).

(** The same on a hardware engine. *)
Definition hsm_obj : ITSS :=
  {| PrivateKey := Some 7; EC := Some cert_a; AT := Some cert_b;
     Directory := "d"; AA_url := "http://aa"; EA_url := "http://ea";
     Certs := ∅; Engine := Some tt; P11URI := None |}.

(** A key and an authorization ticket, no enrollment credential. *)
Definition no_EC_obj : ITSS := with_EC None full_obj.

(** A directory whose key file decodes and whose [itss.ec] is present but
    is no certificate. *)
Definition bad_ec_files : gmap string bytes :=
  <["d/itss.ec" := []]> (<["d/itss.key" := [x07]]> ∅).

(** A directory holding a key and both certificates. *)
Definition good_files : gmap string bytes :=
  <["d/itss.at" := blit "b-cert"]>
    (<["d/itss.ec" := blit "a-cert"]> (<["d/itss.key" := [x07]]> ∅)).

End Stub.

(** ** The start-up sequence of [main] *)

(** [certificate.identity()], as the text that [format] puts in the line. *)
Class CertificateIdentity : Type := {
  identity : Certificate -> string
}.

Section Main.

Context {SB : SigningBackend} {CL : CodecLayer} {TR : Transport}
        {SM : SecureMessaging} {CI : CertificateIdentity}.

Local Open Scope py_scope.

(** The statements of [main] from [ok = itss_obj.load()] to the two lines
    printed before the event loop is created; [itss_obj] is the object of
    the world, as its constructor left it. *)
Definition main_bootstrap : M unit :=
  ok <- load ;;
  let store_ := false in
  store_ <- (if negb ok then generate_private_key ;; ret true
             else ret store_) ;;
  itss_obj <- get_self ;;
  store_ <- (if is_None (EC itss_obj) then enroll ;; ret true
             else ret store_) ;;
  itss_obj <- get_self ;;
  store_ <- (if is_None (AT itss_obj) then authorize ;; ret true
             else ret store_) ;;
  (if store_ then store else ret tt) ;;
  itss_obj <- get_self ;;
  EC_ <- unwrap (EC itss_obj) AttributeError ;;
  print ("ITS-S identity: " +:+ identity EC_) ;;
  AT_ <- unwrap (AT itss_obj) AttributeError ;;
  print ("AT digest: " +:+ hex (Digest AT_)).

End Main.

Module StubMain.

#[local] Instance naming : CertificateIdentity := {|
  identity := fun c => hex (Digest c)
|}.

End StubMain.

(** A codec like that of [Stub] whose responses decode to a refusal. *)
Module StubRefusing.

#[local] Instance codec : CodecLayer := {|
  encode_SignerIdentifier := @encode_SignerIdentifier Stub.codec;
  encode_ToBeSignedEnrolmentCertificateRequest :=
    @encode_ToBeSignedEnrolmentCertificateRequest Stub.codec;
  encode_AuthCertRequest := @encode_AuthCertRequest Stub.codec;
  encode_Signature := @encode_Signature Stub.codec;
  decode_EnrolmentResponse := fun _ =>
    Some {| variant := "unknownEaId"; rootCertificate := None |};
  decode_AuthorizationResponse := fun _ =>
    Some {| variant := "unknownAaId"; rootCertificate := None |};
  encode_der_length := @encode_der_length Stub.codec;
  encode_der_SEQUENCE := @encode_der_SEQUENCE Stub.codec;
  CITS103097v121Certificate := @CITS103097v121Certificate Stub.codec
|}.

End StubRefusing.

(** An envelope like that of [Stub] on which no signature verifies. *)
Module StubForged.

#[local] Instance messaging : SecureMessaging := {|
  SecureMessage := bytes;
  CITS103097v121SecureMessage := @CITS103097v121SecureMessage Stub.messaging;
  Payload := fun m => m;
  signer_digest := fun m => Some (take 1 m);
  signature_valid := fun _ _ => false
|}.

End StubForged.

(** A backend like that of [Stub] whose engine holds the key 7, and a
    fresh instance on it, as [__init__] leaves the attributes. *)
Module StubHsm.

#[local] Instance backend : SigningBackend := {|
  PrivKey := Z;
  ENGINE := unit;
  ec_generate_private_key := @ec_generate_private_key Stub.backend;
  public_numbers := @public_numbers Stub.backend;
  ecdsa_sign := @ecdsa_sign Stub.backend;
  private_bytes := @private_bytes Stub.backend;
  load_der_private_key := @load_der_private_key Stub.backend;
  ENGINE_load_private_key := fun _ _ => Some 7
|}.

Definition fresh_obj : ITSS :=
  {| PrivateKey := None; EC := None; AT := None; Directory := "d";
     AA_url := "http://aa"; EA_url := "http://ea"; Certs := ∅;
     Engine := Some tt; P11URI := None |}.

Definition world_of (o : ITSS) (files : gmap string bytes) : World :=
  {| obj := o; fs := files; clock := 1000; entropy := 0; trace := [] |}.

(** A directory holding both certificates and no key file. *)
Definition certificate_files : gmap string bytes :=
  <["d/itss.at" := blit "b-cert"]> (<["d/itss.ec" := blit "a-cert"]> ∅).

End StubHsm.

(** More instances over the collaborators of [Stub]. *)
Module StubStates.

#[local] Existing Instance Stub.backend.

(** A key and nothing else. *)
Definition key_only_obj : ITSS :=
  with_PrivateKey (Some 7) Stub.fresh_obj.

(** A key and an enrollment credential, no authorization ticket. *)
Definition no_AT_obj : ITSS := with_AT None Stub.full_obj.

(** A fresh instance on a hardware engine. *)
Definition fresh_hsm_obj : ITSS :=
  with_PrivateKey None (with_EC None (with_AT None Stub.hsm_obj)).

(** The full instance with one certificate in its memory tier. *)
Definition cached_obj : ITSS :=
  with_Certs (<[blit "a" := Stub.cert_a]> ∅) Stub.full_obj.

(** A certificate store holding the file of digest [61]. *)
Definition disk_files : gmap string bytes :=
  <["d/certs/61.cert" := blit "a-cert"]> ∅.

(** A certificate store whose file of digest [61] is empty. *)
Definition bad_disk_files : gmap string bytes :=
  <["d/certs/61.cert" := []]> ∅.

End StubStates.

(** The value of a hexadecimal digit and the byte of two digits: the
    inverse of [hex] on one byte.  The source has no decoder; this one
    serves to show that [hex] loses nothing. *)
Fixpoint position (c : ascii) (digits : string) : option N :=
  match digits with
  | EmptyString => None
  | String d rest =>
      if Ascii.eqb c d then Some 0%N else N.succ <$> position c rest
  end.

Definition unhex_digit (c : ascii) : option N :=
  position c "0123456789abcdef".

Definition unhex_byte (hi lo : ascii) : option byte :=
  match unhex_digit hi, unhex_digit lo with
  | Some h, Some l => Byte.of_N (16 * h + l)
  | _, _ => None
  end.

Definition is_FileRead (ev : event) : bool :=
  match ev with
  | FileRead _ => true
  | _ => false
  end.

Definition is_HttpGet (ev : event) : bool :=
  match ev with
  | HttpGet _ => true
  | _ => false
  end.

(** Events that reach outside the process: files and HTTP. *)
Definition is_io (ev : event) : bool :=
  match ev with
  | FileRead _ | FileWrite _ _ | FileUnlink _ | HttpPut _ _ | HttpGet _ => true
  | _ => false
  end.

(** * Properties *)

Create HintDb py discriminated.

#[global] Hint Unfold bind ret raise try_except try_except_else unwrap
  get_self update_self emit print assert_ draw utcnow_since_2004 open_read
  open_write os_unlink requests_put requests_get sign sys_exit getitem
  new_Certificate except_all : py.

(** Runs the combinators and primitives of the goal. *)
Ltac run := autounfold with py; cbn [fst snd obj fs clock entropy trace
  with_obj with_fs with_trace with_entropy PrivateKey EC AT Directory AA_url
  EA_url Certs Engine P11URI with_PrivateKey with_EC with_AT with_Certs
  with_P11URI is_None is_FileNotFoundError is_KeyError is_Exception].

(** Splits the goal on the first scrutinee that is stuck on a variable. *)
Ltac split_match :=
  match goal with
  | |- context [match ?x with _ => _ end] =>
      lazymatch x with
      | context [match _ with _ => _ end] => fail
      | _ => destruct x eqn:?
      end
  end.

Section GenerateKey.

Context {SB : SigningBackend} {CL : CodecLayer} {TR : Transport}
        {SM : SecureMessaging}.

(** C9: with a hardware engine configured, [generate_private_key] raises and
    leaves the whole state as it was: the key, EC and AT keep their values,
    the clearing statements are not reached. *)
Theorem generate_private_key_engine_raises (w : World) (engine : ENGINE) :
  Engine (obj w) = Some engine ->
  generate_private_key w = (Raise (RuntimeError "Not implemented yet!"), w).
Proof.
  intros HE. unfold generate_private_key. run. rewrite HE. reflexivity.
Qed.

(** C4, as amended: in the software-key configuration, whatever EC and AT
    were, [generate_private_key] returns and leaves both unset. *)
Theorem generate_private_key_clears (w : World) :
  Engine (obj w) = None ->
  let r := generate_private_key w in
  fst r = Return tt /\ EC (obj (snd r)) = None /\ AT (obj (snd r)) = None.
Proof.
  intros HE. unfold generate_private_key. run. rewrite HE. cbn. auto.
Qed.

End GenerateKey.

Section GenerateKeyRuns.

#[local] Existing Instances Stub.backend Stub.codec Stub.transport
  Stub.messaging.

(** C9 at the instance on a hardware engine. *)
Lemma generate_private_key_engine_raises_witness :
  Engine (obj (Stub.world_of Stub.hsm_obj ∅)) = Some tt /\
  generate_private_key (Stub.world_of Stub.hsm_obj ∅) =
    (Raise (RuntimeError "Not implemented yet!"), Stub.world_of Stub.hsm_obj ∅).
Proof.
  split; [reflexivity |].
  apply (generate_private_key_engine_raises (Stub.world_of Stub.hsm_obj ∅) tt).
  reflexivity.
Defined.

(** C4 at a software-key instance holding both certificates. *)
Lemma generate_private_key_clears_witness :
  Engine (obj (Stub.world_of Stub.full_obj ∅)) = None /\
  fst (generate_private_key (Stub.world_of Stub.full_obj ∅)) = Return tt /\
  EC (obj (snd (generate_private_key (Stub.world_of Stub.full_obj ∅)))) = None /\
  AT (obj (snd (generate_private_key (Stub.world_of Stub.full_obj ∅)))) = None.
Proof.
  split; [reflexivity |].
  apply (generate_private_key_clears (Stub.world_of Stub.full_obj ∅)).
  reflexivity.
Defined.

(** C4 as stated fails on a hardware engine: the call raises before the
    clearing statements and EC and AT are still set afterwards. *)
Lemma generate_private_key_engine_keeps_certificates :
  let w' := snd (generate_private_key (Stub.world_of Stub.hsm_obj ∅)) in
  ~ (EC (obj w') = None /\ AT (obj w') = None).
Proof.
  cbv zeta. intros [H _]. vm_compute in H. discriminate H.
Qed.

End GenerateKeyRuns.

Section Load.

Context {SB : SigningBackend} {CL : CodecLayer} {TR : Transport}
        {SM : SecureMessaging}.

(** The three fields that [load] asserts to be [None]. *)
Definition unloaded (o : ITSS) : bool :=
  is_None (PrivateKey o) && is_None (EC o) && is_None (AT o).

Lemma unloaded_fields (o : ITSS) :
  unloaded o = true ->
  PrivateKey o = None /\ EC o = None /\ AT o = None.
Proof.
  unfold unloaded, is_None.
  destruct (PrivateKey o), (EC o), (AT o); cbn; intros; try discriminate; auto.
Qed.

(** Restoring the key never ends in a failed assertion. *)
Lemma load_key_no_AssertionError (w : World) :
  fst (load_key w) <> Raise AssertionError.
Proof.
  unfold load_key. run.
  repeat (split_match; cbn); discriminate.
Qed.

(** Nor does restoring a certificate. *)
Lemma load_certificate_no_AssertionError name assign (w : World) :
  fst (load_certificate name assign w) <> Raise AssertionError.
Proof.
  unfold load_certificate. run.
  repeat (split_match; cbn); discriminate.
Qed.

(** C10: [load] asserts that the key, EC and AT are all unset.  On an
    instance that holds any of them the assertion fails and nothing is
    restored (the state is untouched); on an instance that holds none the
    assertions pass, so whatever [load] then does is not a failed
    assertion. *)
Theorem load_precondition (w : World) :
  (unloaded (obj w) = false -> load w = (Raise AssertionError, w)) /\
  (unloaded (obj w) = true -> fst (load w) <> Raise AssertionError).
Proof.
  split.
  - unfold unloaded, load. run.
    destruct (PrivateKey (obj w)); cbn; [reflexivity |].
    destruct (EC (obj w)); cbn; [reflexivity |].
    destruct (AT (obj w)); cbn; [reflexivity | discriminate].
  - intros Hu. destruct (unloaded_fields _ Hu) as (HK & HE & HA).
    unfold load. run. rewrite HK, HE, HA. cbn [is_None].
    pose proof (load_key_no_AssertionError w) as Hk.
    destruct (load_key w) as [[[] | e] w1]; cbn [fst snd] in *;
      try congruence.
    pose proof (load_certificate_no_AssertionError "itss.ec" with_EC w1) as H1.
    destruct (load_certificate "itss.ec" with_EC w1) as [[[] | e1] w2];
      cbn [fst snd] in *; try congruence.
    pose proof (load_certificate_no_AssertionError "itss.at" with_AT w2) as H2.
    destruct (load_certificate "itss.at" with_AT w2) as [[[] | e2] w3];
      cbn [fst snd] in *; congruence.
Qed.

End Load.

Section LoadRuns.

#[local] Existing Instances Stub.backend Stub.codec Stub.transport
  Stub.messaging.

(** C10 at an instance that holds a key and at a fresh one. *)
Lemma load_precondition_witness :
  load (Stub.world_of Stub.full_obj Stub.good_files) =
    (Raise AssertionError, Stub.world_of Stub.full_obj Stub.good_files) /\
  fst (load (Stub.world_of Stub.fresh_obj Stub.good_files)) <> Raise AssertionError.
Proof.
  split.
  - apply (proj1 (load_precondition (Stub.world_of Stub.full_obj Stub.good_files))).
    reflexivity.
  - apply (proj2 (load_precondition (Stub.world_of Stub.fresh_obj Stub.good_files))).
    reflexivity.
Defined.

End LoadRuns.

Section LoadOutcome.

Context {SB : SigningBackend} {CL : CodecLayer} {TR : Transport}
        {SM : SecureMessaging}.


End LoadOutcome.

Section LoadOutcomeRuns.

#[local] Existing Instances Stub.backend Stub.codec Stub.transport
  Stub.messaging.


(** C2 as stated fails: with a key file that decodes and an [itss.ec] that
    is present but is no certificate, [load] raises instead of returning. *)
Lemma load_raises_on_unparseable_EC :
  fst (load (Stub.world_of Stub.fresh_obj Stub.bad_ec_files)) =
    Raise CertificateError.
Proof. vm_compute. reflexivity. Qed.


End LoadOutcomeRuns.

(** ** [store] *)

Lemma append_inj_r (p a c : string) : p +:+ a = p +:+ c -> a = c.
Proof.
  induction p as [| ch p IH]; cbn; [auto |].
  intros H. injection H as H. auto.
Qed.

(** Two relative names joined to the same directory give the same path only
    when they are the same name. *)
Lemma path_join_inj (dir a c : string) :
  startswith_sep a = false -> startswith_sep c = false ->
  path_join dir [a] = path_join dir [c] -> a = c.
Proof.
  unfold path_join, join2. cbn [fold_left]. intros -> ->.
  destruct (String.eqb dir "" || endswith_sep dir)%bool; intros H.
  - exact (append_inj_r _ _ _ H).
  - apply append_inj_r in H. exact (append_inj_r _ _ _ H).
Qed.

Lemma key_path_ne_ec_path (dir : string) :
  path_join dir ["itss.key"] <> path_join dir ["itss.ec"].
Proof. intros H. apply path_join_inj in H; [discriminate | reflexivity ..]. Qed.

Lemma key_path_ne_at_path (dir : string) :
  path_join dir ["itss.key"] <> path_join dir ["itss.at"].
Proof. intros H. apply path_join_inj in H; [discriminate | reflexivity ..]. Qed.

Lemma ec_path_ne_at_path (dir : string) :
  path_join dir ["itss.ec"] <> path_join dir ["itss.at"].
Proof. intros H. apply path_join_inj in H; [discriminate | reflexivity ..]. Qed.

Section Store.

Context {SB : SigningBackend} {CL : CodecLayer} {TR : Transport}
        {SM : SecureMessaging}.

(** The key that [store] can persist: it has nothing to write on a hardware
    engine, and needs the key otherwise. *)
Definition key_storable (o : ITSS) : bool :=
  negb (is_None (Engine o)) || negb (is_None (PrivateKey o)).

(** C3, the failing case: with EC unset and no [itss.ec] in the directory,
    [store] does not complete: the removal raises [FileNotFoundError], and
    the AT that follows is neither written nor removed. *)
Theorem store_unset_EC_missing_file_raises (w : World) :
  key_storable (obj w) = true ->
  EC (obj w) = None ->
  fs w !! path_join (Directory (obj w)) ["itss.ec"] = None ->
  fst (store w) =
    Raise (FileNotFoundError (path_join (Directory (obj w)) ["itss.ec"])) /\
  fs (snd (store w)) !! path_join (Directory (obj w)) ["itss.at"] =
    fs w !! path_join (Directory (obj w)) ["itss.at"].
Proof.
  unfold key_storable. intros Hk HC Hf. unfold store. run.
  destruct (Engine (obj w)) as [engine|]; run.
  - rewrite HC. run. rewrite Hf. auto.
  - destruct (PrivateKey (obj w)) as [key|]; [| discriminate Hk]. run.
    rewrite HC. run.
    rewrite lookup_insert_ne by apply key_path_ne_ec_path.
    rewrite Hf. run.
    rewrite lookup_insert_ne by apply key_path_ne_at_path. auto.
Qed.

(** The cases of C3 that hold: a certificate that is set is written out with
    its raw bytes, and one that is unset has its stale file removed, provided
    the file is there. *)
Lemma store_writes_and_removes (w : World) :
  key_storable (obj w) = true ->
  let dir := Directory (obj w) in
  (EC (obj w) = None -> fs w !! path_join dir ["itss.ec"] <> None) ->
  (AT (obj w) = None -> fs w !! path_join dir ["itss.at"] <> None) ->
  fst (store w) = Return tt /\
  fs (snd (store w)) !! path_join dir ["itss.ec"] = Data <$> EC (obj w) /\
  fs (snd (store w)) !! path_join dir ["itss.at"] = Data <$> AT (obj w).
Proof.
  intros Hk dir Hec Hat. subst dir. unfold key_storable in Hk.
  unfold store. run.
  pose proof (key_path_ne_ec_path (Directory (obj w))) as Nke.
  pose proof (key_path_ne_at_path (Directory (obj w))) as Nka.
  pose proof (ec_path_ne_at_path (Directory (obj w))) as Nea.
  destruct (Engine (obj w)) as [engine|]; run;
    [| destruct (PrivateKey (obj w)) as [key|]; [| discriminate Hk]; run ];
    destruct (EC (obj w)) as [ec|]; run;
    try (specialize (Hec eq_refl));
    rewrite ?(lookup_insert_ne _ _ _ _ Nke);
    try (destruct (fs w !! path_join (Directory (obj w)) ["itss.ec"]) eqn:Fec;
         [| congruence]); run;
    destruct (AT (obj w)) as [at_|]; run;
    try (specialize (Hat eq_refl));
    rewrite ?lookup_delete_ne, ?lookup_insert_ne by congruence;
    try (destruct (fs w !! path_join (Directory (obj w)) ["itss.at"]) eqn:Fat;
         [| congruence]); run;
    cbn [fmap option_fmap option_map];
    repeat split;
    rewrite ?lookup_insert_eq, ?lookup_delete_eq;
    rewrite ?lookup_delete_ne, ?lookup_insert_ne by congruence;
    rewrite ?lookup_insert_eq, ?lookup_delete_eq; auto.
Qed.

End Store.

Section StoreRuns.

#[local] Existing Instances Stub.backend Stub.codec Stub.transport
  Stub.messaging.

(** C3 at an instance with a key and an AT but no EC, over an empty
    directory: [store] writes the key file, attempts the removal and
    raises. *)
Lemma store_unset_EC_missing_file_raises_witness :
  fst (store (Stub.world_of Stub.no_EC_obj ∅)) =
    Raise (FileNotFoundError (path_join "d" ["itss.ec"])) /\
  fs (snd (store (Stub.world_of Stub.no_EC_obj ∅))) !! path_join "d" ["itss.at"] =
    (∅ : gmap string bytes) !! path_join "d" ["itss.at"].
Proof.
  exact (store_unset_EC_missing_file_raises (Stub.world_of Stub.no_EC_obj ∅)
           eq_refl eq_refl eq_refl).
Defined.

End StoreRuns.

(** ** The requests of [enroll] and [authorize] *)

Section Requests.

Context {SB : SigningBackend} {CL : CodecLayer} {TR : Transport}
        {SM : SecureMessaging}.

Lemma pack_B_a0 : pack_B 0xa0 = [xa0].
Proof. reflexivity. Qed.

Lemma pack_B_a1 : pack_B 0xa1 = [xa1].
Proof. reflexivity. Qed.

Lemma pack_B_a2 : pack_B 0xa2 = [xa2].
Proof. reflexivity. Qed.

(** Closes a goal [exists rest, t ++ [a] ++ ... = t ++ a :: rest /\ _] once
    the run has been unfolded. *)
Ltac close_trace :=
  rewrite <- ?app_assoc; cbn [app]; eexists; split; reflexivity.

(** What a run of [enroll] on an instance holding [key] does first: it signs
    the two tagged blocks and sends the sequence of these and the signature
    block to the enrollment authority; it signs nothing else. *)
Lemma enroll_trace (w : World) (key : PrivKey) :
  PrivateKey (obj w) = Some key ->
  let req :=
    EnrolmentRequest_literal (clock w)
      (fst (public_numbers key)) (snd (public_numbers key))
      (fst (public_numbers (ec_generate_private_key (entropy w)))) in
  let signing_input :=
    (xa0 :: drop1 (encode_SignerIdentifier (signerEnrolRequest req))) ++
    (xa1 :: drop1 (encode_ToBeSignedEnrolmentCertificateRequest
                     (enrolCertRequest req))) in
  let rs := ecdsa_sign key (S (entropy w)) signing_input in
  let signature_block :=
    xa2 :: drop1 (encode_Signature (Signature_literal (fst rs) (snd rs))) in
  exists rest,
    trace (snd (enroll w)) =
      trace w ++
      Sign signing_input ::
      HttpPut (EA_url (obj w) +:+ "/cits/ts_102941_v111/ea/enroll")
        (encode_der_SEQUENCE (signing_input ++ signature_block)) :: rest /\
    forallb (fun ev => negb (is_Sign ev)) rest = true.
Proof.
  intros HK. cbv zeta. unfold enroll. run. rewrite HK. run.
  rewrite pack_B_a0, pack_B_a1, pack_B_a2. cbn [app].
  destruct (http_put _ _) as [content|]; run; [| close_trace].
  destruct (decode_EnrolmentResponse content) as [resp|]; run;
    [| close_trace].
  destruct (negb _); run; [close_trace |].
  destruct (rootCertificate resp) as [root|]; run; [| close_trace].
  destruct (CITS103097v121Certificate root); run; close_trace.
Qed.

(** The same for [authorize] on an instance holding [key] and the enrollment
    credential [ec]. *)
Lemma authorize_trace (w : World) (key : PrivKey) (ec : Certificate) :
  PrivateKey (obj w) = Some key ->
  EC (obj w) = Some ec ->
  let req := AuthorizationRequest_literal (clock w) (Digest ec) in
  let acr := xa0 :: drop1 (encode_AuthCertRequest (authCertRequest req)) in
  let signing_input :=
    (xa0 :: drop1 (encode_SignerIdentifier (signerAuthRequest req))) ++
    (xa1 :: encode_der_length (length acr) ++ acr) in
  let rs := ecdsa_sign key (entropy w) signing_input in
  let signature_block :=
    xa2 :: drop1 (encode_Signature (Signature_literal (fst rs) (snd rs))) in
  exists rest,
    trace (snd (authorize w)) =
      trace w ++
      Sign signing_input ::
      HttpPut (AA_url (obj w) +:+ "/cits/ts_102941_v111/aa/approve")
        (encode_der_SEQUENCE (signing_input ++ signature_block)) :: rest /\
    forallb (fun ev => negb (is_Sign ev)) rest = true.
Proof.
  intros HK HC. cbv zeta. unfold authorize. run. rewrite HC. run.
  rewrite HK. run.
  rewrite pack_B_a0, pack_B_a1, pack_B_a2. cbn [app].
  destruct (http_put _ _) as [content|]; run; [| close_trace].
  destruct (decode_AuthorizationResponse content) as [resp|]; run;
    [| close_trace].
  destruct (negb _); run; [close_trace |].
  destruct (rootCertificate resp) as [root|]; run; [| close_trace].
  destruct (CITS103097v121Certificate root); run; close_trace.
Qed.

End Requests.

Section RequestProperties.

Context {SB : SigningBackend} {CL : CodecLayer} {TR : Transport}
        {SM : SecureMessaging}.

(** C1, what the code does: the to-be-signed record that [enroll] encodes
    and signs carries the request time itself in its ['expiration'] field,
    for every request time; the sum [requestTime + 3600] that the method
    computes is not used. *)
Theorem enroll_expiration_is_request_time (w : World) (key : PrivKey) :
  PrivateKey (obj w) = Some key ->
  let tbs :=
    enrolCertRequest
      (EnrolmentRequest_literal (clock w)
         (fst (public_numbers key)) (snd (public_numbers key))
         (fst (public_numbers (ec_generate_private_key (entropy w))))) in
  (exists signer_block rest,
     trace (snd (enroll w)) =
       trace w ++
       Sign (signer_block ++
             xa1 :: drop1 (encode_ToBeSignedEnrolmentCertificateRequest tbs))
       :: rest) /\
  requestTime tbs = clock w /\
  expiration tbs = clock w /\
  expiration tbs <> clock w + 3600.
Proof.
  intros HK tbs. split.
  - destruct (enroll_trace w key HK) as (rest & Ht & _).
    eexists _, _. exact Ht.
  - subst tbs. cbn. repeat split. lia.
Qed.

(** C5: in [enroll] and in [authorize] alike, the one message handed to the
    signing operation is the tagged signer identifier followed by the tagged
    to-be-signed payload; the signature block, built from the signature of
    that message, is appended only afterwards, in the body that is sent. *)
Theorem signing_input_is_the_two_tagged_blocks (w : World) (key : PrivKey) :
  PrivateKey (obj w) = Some key ->
  (let req :=
     EnrolmentRequest_literal (clock w)
       (fst (public_numbers key)) (snd (public_numbers key))
       (fst (public_numbers (ec_generate_private_key (entropy w)))) in
   let signing_input :=
     (xa0 :: drop1 (encode_SignerIdentifier (signerEnrolRequest req))) ++
     (xa1 :: drop1 (encode_ToBeSignedEnrolmentCertificateRequest
                      (enrolCertRequest req))) in
   let rs := ecdsa_sign key (S (entropy w)) signing_input in
   let signature_block :=
     xa2 :: drop1 (encode_Signature (Signature_literal (fst rs) (snd rs))) in
   exists rest,
     trace (snd (enroll w)) =
       trace w ++
       Sign signing_input ::
       HttpPut (EA_url (obj w) +:+ "/cits/ts_102941_v111/ea/enroll")
         (encode_der_SEQUENCE (signing_input ++ signature_block)) :: rest /\
     forallb (fun ev => negb (is_Sign ev)) rest = true) /\
  (forall ec : Certificate,
   EC (obj w) = Some ec ->
   let req := AuthorizationRequest_literal (clock w) (Digest ec) in
   let acr := xa0 :: drop1 (encode_AuthCertRequest (authCertRequest req)) in
   let signing_input :=
     (xa0 :: drop1 (encode_SignerIdentifier (signerAuthRequest req))) ++
     (xa1 :: encode_der_length (length acr) ++ acr) in
   let rs := ecdsa_sign key (entropy w) signing_input in
   let signature_block :=
     xa2 :: drop1 (encode_Signature (Signature_literal (fst rs) (snd rs))) in
   exists rest,
     trace (snd (authorize w)) =
       trace w ++
       Sign signing_input ::
       HttpPut (AA_url (obj w) +:+ "/cits/ts_102941_v111/aa/approve")
         (encode_der_SEQUENCE (signing_input ++ signature_block)) :: rest /\
     forallb (fun ev => negb (is_Sign ev)) rest = true).
Proof.
  intros HK. split.
  - exact (enroll_trace w key HK).
  - intros ec HC. exact (authorize_trace w key ec HK HC).
Qed.

(** C6: the body that [authorize] sends embeds, under the tag [0xa1], the
    length of the inner block followed by the inner block, which is the
    encoded choice with its leading byte replaced by [0xa0]; the body that
    [enroll] sends embeds, under [0xa1], the encoded payload less its leading
    byte, with no inner block and no length of its own. *)
Theorem authorize_wraps_the_choice_twice (w : World) (key : PrivKey)
    (ec : Certificate) :
  PrivateKey (obj w) = Some key ->
  EC (obj w) = Some ec ->
  (let req := AuthorizationRequest_literal (clock w) (Digest ec) in
   let acr := xa0 :: drop1 (encode_AuthCertRequest (authCertRequest req)) in
   exists signature_block,
     In (HttpPut (AA_url (obj w) +:+ "/cits/ts_102941_v111/aa/approve")
           (encode_der_SEQUENCE
              ((xa0 :: drop1 (encode_SignerIdentifier (signerAuthRequest req)))
               ++ (xa1 :: encode_der_length (length acr) ++ acr)
               ++ signature_block)))
        (trace (snd (authorize w)))) /\
  (let req :=
     EnrolmentRequest_literal (clock w)
       (fst (public_numbers key)) (snd (public_numbers key))
       (fst (public_numbers (ec_generate_private_key (entropy w)))) in
   exists signature_block,
     In (HttpPut (EA_url (obj w) +:+ "/cits/ts_102941_v111/ea/enroll")
           (encode_der_SEQUENCE
              ((xa0 :: drop1 (encode_SignerIdentifier (signerEnrolRequest req)))
               ++ (xa1 :: drop1 (encode_ToBeSignedEnrolmentCertificateRequest
                                   (enrolCertRequest req)))
               ++ signature_block)))
        (trace (snd (enroll w)))).
Proof.
  intros HK HC. split; cbv zeta.
  - destruct (authorize_trace w key ec HK HC) as (rest & Ht & _).
    eexists. rewrite Ht, <- app_assoc. apply in_or_app. right.
    right. left. reflexivity.
  - destruct (enroll_trace w key HK) as (rest & Ht & _).
    eexists. rewrite Ht, <- app_assoc. apply in_or_app. right.
    right. left. reflexivity.
Qed.

End RequestProperties.

Section RequestRuns.

#[local] Existing Instances Stub.backend Stub.codec Stub.transport
  Stub.messaging.

(** C1 at request time 1000: the stand-in codec writes the request time and
    the expiration as one byte each, and both bytes are 1000 mod 256 = 0xe8
    (1000 + 3600 would give 0xf8). *)
Lemma enroll_expiration_is_request_time_witness :
  PrivateKey (obj (Stub.world_of Stub.full_obj ∅)) = Some 7 /\
  exists signer_block rest,
    trace (snd (enroll (Stub.world_of Stub.full_obj ∅))) =
      [] ++ Sign (signer_block ++ [xa1; xe8; xe8]) :: rest.
Proof.
  split; [reflexivity |].
  destruct (enroll_expiration_is_request_time
              (Stub.world_of Stub.full_obj ∅) 7 eq_refl)
    as ((signer_block & rest & Ht) & _).
  exists signer_block, rest. exact Ht.
Defined.

(** C5 at an instance holding a key and an enrollment credential. *)
Lemma signing_input_is_the_two_tagged_blocks_witness :
  PrivateKey (obj (Stub.world_of Stub.full_obj ∅)) = Some 7 /\
  (exists signing_input signature_block rest,
     trace (snd (enroll (Stub.world_of Stub.full_obj ∅))) =
       Sign signing_input ::
       HttpPut "http://ea/cits/ts_102941_v111/ea/enroll"
         (encode_der_SEQUENCE (signing_input ++ signature_block)) :: rest) /\
  (exists signing_input signature_block rest,
     trace (snd (authorize (Stub.world_of Stub.full_obj ∅))) =
       Sign signing_input ::
       HttpPut "http://aa/cits/ts_102941_v111/aa/approve"
         (encode_der_SEQUENCE (signing_input ++ signature_block)) :: rest).
Proof.
  split; [reflexivity |].
  destruct (signing_input_is_the_two_tagged_blocks
              (Stub.world_of Stub.full_obj ∅) 7 eq_refl) as (He & Ha).
  split.
  - destruct He as (rest & Ht & _). eexists _, _, rest. exact Ht.
  - destruct (Ha Stub.cert_a eq_refl) as (rest & Ht & _).
    eexists _, _, rest. exact Ht.
Defined.

(** C6 at the same instance: under [0xa1] the authorization body carries the
    length 2 and the inner block [0xa0 0xe8]. *)
Lemma authorize_wraps_the_choice_twice_witness :
  PrivateKey (obj (Stub.world_of Stub.full_obj ∅)) = Some 7 /\
  EC (obj (Stub.world_of Stub.full_obj ∅)) = Some Stub.cert_a /\
  exists signature_block,
    In (HttpPut "http://aa/cits/ts_102941_v111/aa/approve"
          (encode_der_SEQUENCE
             ([xa0; x61] ++ [xa1; x02; xa0; xe8] ++ signature_block)))
       (trace (snd (authorize (Stub.world_of Stub.full_obj ∅)))).
Proof.
  split; [reflexivity |]. split; [reflexivity |].
  destruct (authorize_wraps_the_choice_twice
              (Stub.world_of Stub.full_obj ∅) 7 Stub.cert_a eq_refl eq_refl)
    as ((signature_block & Hin) & _).
  exists signature_block. exact Hin.
Defined.

End RequestRuns.

(** ** The certificate resolver *)

Section Resolver.

Context {SB : SigningBackend} {CL : CodecLayer} {TR : Transport}
        {SM : SecureMessaging}.

(** A digest in the memory tier is answered from it, and the world, its
    trace included, stays as it was. *)
Lemma get_certificate_by_digest_hit (digest : bytes) (w : World)
    (cert : Certificate) :
  Certs (obj w) !! digest = Some cert ->
  get_certificate_by_digest digest w = (Return cert, w).
Proof.
  intros Hc. unfold get_certificate_by_digest. run. rewrite Hc. reflexivity.
Qed.

(** A call that returns leaves the certificate it returns in the memory
    tier, under the digest asked for. *)
Lemma get_certificate_by_digest_populates (digest : bytes) (w w' : World)
    (cert : Certificate) :
  get_certificate_by_digest digest w = (Return cert, w') ->
  Certs (obj w') !! digest = Some cert.
Proof.
  unfold get_certificate_by_digest, store_certificate. run.
  destruct (Certs (obj w) !! digest) as [c|] eqn:Hc; run.
  - intros [= <- <-]. exact Hc.
  - destruct (fs w !! _) as [data|]; run.
    + destruct (CITS103097v121Certificate data) as [c|]; run;
        [| discriminate].
      intros [= <- <-]. run. apply lookup_insert_eq.
    + destruct (http_get _) as [content|]; run; [| discriminate].
      destruct (CITS103097v121Certificate content) as [c|]; run;
        [| discriminate].
      intros [= <- <-]. run. apply lookup_insert_eq.
Qed.

(** C7: when [get_certificate_by_digest] returns a certificate, that call
    has put it in the memory tier, and a second call with the same digest
    returns the same certificate (same digest, same bytes) from there: the
    world after it, files and trace of I/O included, is the world before
    it. *)
Theorem get_certificate_by_digest_twice (digest : bytes) (w w' : World)
    (cert : Certificate) :
  get_certificate_by_digest digest w = (Return cert, w') ->
  Certs (obj w') !! digest = Some cert /\
  get_certificate_by_digest digest w' = (Return cert, w').
Proof.
  intros H. apply get_certificate_by_digest_populates in H.
  split; [exact H |]. apply get_certificate_by_digest_hit. exact H.
Qed.

(** Whatever the resolver raises is an [Exception]. *)
Lemma get_certificate_by_digest_raises_Exception (digest : bytes)
    (w w' : World) (e : exn) :
  get_certificate_by_digest digest w = (Raise e, w') ->
  is_Exception e = true.
Proof.
  unfold get_certificate_by_digest, store_certificate. run.
  repeat (split_match; run); intros [= <- <-]; reflexivity.
Qed.

End Resolver.

Section ResolverRuns.

#[local] Existing Instances Stub.backend Stub.codec Stub.transport
  Stub.messaging.

(** C7 at a digest that is neither in memory nor on disk: the first call
    reads the disk, asks the authority and writes the file; the second adds
    nothing to these three events. *)
Lemma get_certificate_by_digest_twice_witness :
  let w := Stub.world_of Stub.full_obj ∅ in
  let r := get_certificate_by_digest (blit "r") w in
  fst r = Return {| Data := blit "remote"; Digest := blit "r" |} /\
  trace (snd r) =
    [FileRead "d/certs/72.cert"; HttpGet "http://aa/cits/digest/72";
     FileWrite "d/certs/72.cert" (blit "remote")] /\
  get_certificate_by_digest (blit "r") (snd r) = r.
Proof.
  cbv zeta. split; [reflexivity |]. split; [reflexivity |].
  exact (proj2 (get_certificate_by_digest_twice (blit "r")
                  (Stub.world_of Stub.full_obj ∅)
                  (snd (get_certificate_by_digest (blit "r")
                          (Stub.world_of Stub.full_obj ∅)))
                  {| Data := blit "remote"; Digest := blit "r" |}
                  eq_refl)).
Defined.

End ResolverRuns.

(** ** The inbound handler *)

Section Inbound.

Context {SB : SigningBackend} {CL : CodecLayer} {TR : Transport}
        {SM : SecureMessaging}.

(** Parsing, resolving and verifying raise nothing but [Exception]s. *)
Lemma process_datagram_raises_Exception (data : bytes) (w w' : World)
    (e : exn) :
  process_datagram data w = (Raise e, w') ->
  is_Exception e = true.
Proof.
  unfold process_datagram, verify. run.
  destruct (CITS103097v121SecureMessage data) as [msg|]; run;
    [| intros [= <- <-]; reflexivity].
  destruct (signer_digest msg) as [digest|]; run;
    [| intros [= <- <-]; reflexivity].
  destruct (get_certificate_by_digest digest w) as [[cert | e'] w1] eqn:Hg.
  - destruct (signature_valid msg cert); run; [discriminate |].
    intros [= <- <-]. reflexivity.
  - intros [= <- <-].
    exact (get_certificate_by_digest_raises_Exception _ _ _ _ Hg).
Qed.

(** C8: [datagram_received] returns for every datagram and never raises.
    When the processing of the datagram succeeds, the handler leaves the
    world the processing left; when it raises, at the parse, the resolution
    or the verification, the handler logs the error (the message line and
    the traceback) on top of that world and returns. *)
Theorem datagram_received_never_raises (data : bytes) (w : World) :
  fst (datagram_received data w) = Return tt /\
  match process_datagram data w with
  | (Return _, w1) => snd (datagram_received data w) = w1
  | (Raise e, w1) =>
      snd (datagram_received data w) =
        with_trace
          (trace w1 ++ [Print "Error when processing message"; PrintExc e]) w1
  end.
Proof.
  unfold datagram_received, report_error. run.
  destruct (process_datagram data w) as [[[] | e] w1] eqn:Hp; run.
  - split; reflexivity.
  - rewrite (process_datagram_raises_Exception _ _ _ _ Hp). run.
    rewrite <- app_assoc. split; reflexivity.
Qed.

End Inbound.

Section InboundRuns.

#[local] Existing Instances Stub.backend Stub.codec Stub.transport
  Stub.messaging.

(** An empty datagram does not parse: the handler logs and returns. *)
Example datagram_received_malformed :
  datagram_received [] (Stub.world_of Stub.full_obj ∅) =
    (Return tt,
     with_trace [Print "Error when processing message"; PrintExc MessageError]
       (Stub.world_of Stub.full_obj ∅)).
Proof. reflexivity. Qed.

(** A datagram whose signer is known to the authority only is verified and
    reported; the same datagram again costs no second request. *)
Example datagram_received_twice :
  let w1 := snd (datagram_received (blit "rx") (Stub.world_of Stub.full_obj ∅)) in
  let signer := {| Data := blit "remote"; Digest := blit "r" |} in
  trace w1 =
    [FileRead "d/certs/72.cert"; HttpGet "http://aa/cits/digest/72";
     FileWrite "d/certs/72.cert" (blit "remote");
     PrintVerified (blit "rx") signer] /\
  trace (snd (datagram_received (blit "rx") w1)) =
    trace w1 ++ [PrintVerified (blit "rx") signer].
Proof. split; reflexivity. Qed.

End InboundRuns.

(** * Further properties of the code *)

(** ** [load] *)

Section LoadMore.

Context {SB : SigningBackend} {CL : CodecLayer} {TR : Transport}
        {SM : SecureMessaging}.

(** Closes [exists evs, t ++ [a] ++ ... = t ++ evs /\ forallb p evs = true],
    also when nothing was added. *)
Ltac close_events :=
  rewrite <- ?app_assoc; cbn [app];
  first [ eexists; split; reflexivity
        | exists []; split; [symmetry; apply app_nil_r | reflexivity] ].

(** [load] only reads: whatever it returns or raises, the files are the
    files it found, and all it adds to the trace are file reads. *)
Theorem load_only_reads (w : World) :
  fs (snd (load w)) = fs w /\
  exists reads,
    trace (snd (load w)) = trace w ++ reads /\
    forallb is_FileRead reads = true.
Proof.
  unfold load, load_key, load_certificate. run.
  repeat (split_match; run); split; try reflexivity; close_events.
Qed.

(** A [load] that returned [True] has set the key. *)
Lemma load_true_sets_key (w w' : World) :
  load w = (Return true, w') -> PrivateKey (obj w') <> None.
Proof.
  unfold load, load_key, load_certificate. run.
  repeat (split_match; run); intros [= <-]; run; discriminate.
Qed.

(** An instance that holds a key fails the first assertion of [load]. *)
Lemma load_with_key_fails (w : World) :
  PrivateKey (obj w) <> None -> load w = (Raise AssertionError, w).
Proof.
  intros H. unfold load. run.
  destruct (PrivateKey (obj w)); [reflexivity | contradiction].
Qed.

(** [load] is for a fresh instance only: once it has returned [True], a
    second [load] on the same instance fails its first assertion and leaves
    everything as it is. *)
Theorem load_twice_fails (w w' : World) :
  load w = (Return true, w') ->
  load w' = (Raise AssertionError, w').
Proof.
  intros H. apply load_with_key_fails. exact (load_true_sets_key _ _ H).
Qed.

(** A [load] that returned [False] has changed nothing on the instance; all
    it did was to try the key file. *)
Theorem load_false_unchanged (w w' : World) :
  load w = (Return false, w') ->
  obj w' = obj w /\
  trace w' = trace w ++ [FileRead (path_join (Directory (obj w)) ["itss.key"])].
Proof.
  unfold load, load_key, load_certificate. run.
  repeat (split_match; run); intros [= <-]; run; split; reflexivity.
Qed.


(** [load] is not all-or-nothing: with a key file that decodes and an
    [itss.ec] that is present but is no certificate, it raises with the key
    already set on the instance, so that a second [load] on this instance
    fails its assertion. *)
Theorem load_unparseable_EC_keeps_key (w : World) (data raw : bytes)
    (key : PrivKey) :
  unloaded (obj w) = true ->
  Engine (obj w) = None ->
  fs w !! path_join (Directory (obj w)) ["itss.key"] = Some data ->
  load_der_private_key data password = Some key ->
  fs w !! path_join (Directory (obj w)) ["itss.ec"] = Some raw ->
  CITS103097v121Certificate raw = None ->
  let r := load w in
  fst r = Raise CertificateError /\
  PrivateKey (obj (snd r)) = Some key /\
  EC (obj (snd r)) = None /\
  AT (obj (snd r)) = None /\
  load (snd r) = (Raise AssertionError, snd r).
Proof.
  intros Hu HE Fk Dk Fe De r.
  destruct (unloaded_fields _ Hu) as (HK & HC & HA).
  assert (Hr : fst r = Raise CertificateError /\
               PrivateKey (obj (snd r)) = Some key /\
               EC (obj (snd r)) = None /\ AT (obj (snd r)) = None).
  { subst r. unfold load, load_key, load_certificate. run.
    rewrite HK, HC, HA. run. rewrite HE. run. rewrite Fk. run.
    rewrite Dk. run. rewrite Fe. run. rewrite De. run. auto. }
  destruct Hr as (H1 & H2 & H3 & H4). repeat split; auto.
  apply load_with_key_fails. rewrite H2. discriminate.
Qed.

(** What [load] gives on an unloaded software-key instance when the key
    file decodes to [key] and each certificate file is absent, or present
    and a certificate. *)
Lemma load_from_files (w : World) (key : PrivKey) (ec at_ : option Certificate) :
  unloaded (obj w) = true ->
  Engine (obj w) = None ->
  fs w !! path_join (Directory (obj w)) ["itss.key"]
    ≫= (fun data => load_der_private_key data password) = Some key ->
  match fs w !! path_join (Directory (obj w)) ["itss.ec"] with
  | None => ec = None
  | Some raw => ec <> None /\ CITS103097v121Certificate raw = ec
  end ->
  match fs w !! path_join (Directory (obj w)) ["itss.at"] with
  | None => at_ = None
  | Some raw => at_ <> None /\ CITS103097v121Certificate raw = at_
  end ->
  fst (load w) = Return true /\
  PrivateKey (obj (snd (load w))) = Some key /\
  EC (obj (snd (load w))) = ec /\
  AT (obj (snd (load w))) = at_.
Proof.
  intros Hu HE Hk Hec Hat.
  destruct (unloaded_fields _ Hu) as (HK & HC & HA).
  unfold load, load_key, load_certificate. run.
  rewrite HK, HC, HA. run. rewrite HE. run.
  destruct (fs w !! path_join (Directory (obj w)) ["itss.key"]) as [data|];
    cbn [mbind option_bind] in Hk; [| discriminate]. run.
  rewrite Hk. run.
  destruct (fs w !! path_join (Directory (obj w)) ["itss.ec"]) as [rawe|];
    destruct (fs w !! path_join (Directory (obj w)) ["itss.at"])
      as [rawa|] eqn:Fat;
    run.
  - destruct Hec as (Ne & ->). destruct Hat as (Na & Pa).
    destruct ec as [c|]; [| contradiction]. run. rewrite Fat.
    rewrite Pa. destruct at_ as [c'|]; [| contradiction]. run. auto.
  - destruct Hec as (Ne & ->). subst at_.
    destruct ec as [c|]; [| contradiction]. run. rewrite Fat. run.
    rewrite HA. auto.
  - subst ec. destruct Hat as (Na & Pa). rewrite Fat.
    rewrite Pa. destruct at_ as [c'|]; [| contradiction]. run.
    rewrite HC. auto.
  - subst ec at_. rewrite Fat. run. rewrite HC, HA. auto.
Qed.

End LoadMore.

Section LoadMoreRuns.

#[local] Existing Instances Stub.backend Stub.codec Stub.transport
  Stub.messaging.

(** A successful [load] over a complete directory, then a second one. *)
Lemma load_twice_fails_witness :
  let w' := snd (load (Stub.world_of Stub.fresh_obj Stub.good_files)) in
  load (Stub.world_of Stub.fresh_obj Stub.good_files) = (Return true, w') /\
  load w' = (Raise AssertionError, w').
Proof.
  cbv zeta. split; [reflexivity |].
  exact (load_twice_fails (Stub.world_of Stub.fresh_obj Stub.good_files) _
           eq_refl).
Defined.

(** A [load] over an empty directory. *)
Lemma load_false_unchanged_witness :
  let w' := snd (load (Stub.world_of Stub.fresh_obj ∅)) in
  load (Stub.world_of Stub.fresh_obj ∅) = (Return false, w') /\
  obj w' = Stub.fresh_obj /\
  trace w' = [] ++ [FileRead (path_join "d" ["itss.key"])].
Proof.
  cbv zeta. split; [reflexivity |].
  exact (load_false_unchanged (Stub.world_of Stub.fresh_obj ∅) _ eq_refl).
Defined.


(** The directory with a good key and a broken [itss.ec]. *)
Lemma load_unparseable_EC_keeps_key_witness :
  let r := load (Stub.world_of Stub.fresh_obj Stub.bad_ec_files) in
  fst r = Raise CertificateError /\
  PrivateKey (obj (snd r)) = Some 7 /\
  EC (obj (snd r)) = None /\
  AT (obj (snd r)) = None /\
  load (snd r) = (Raise AssertionError, snd r).
Proof.
  exact (load_unparseable_EC_keeps_key
           (Stub.world_of Stub.fresh_obj Stub.bad_ec_files) [x07] [] 7
           eq_refl eq_refl eq_refl eq_refl eq_refl eq_refl).
Defined.

End LoadMoreRuns.

(** ** [store] *)

Section StoreMore.

Context {SB : SigningBackend} {CL : CodecLayer} {TR : Transport}
        {SM : SecureMessaging}.

(** Looks through the writes and removals at paths other than the one
    looked up. *)
Ltac skip_other_paths :=
  repeat first [ rewrite lookup_insert_ne by congruence
               | rewrite lookup_delete_ne by congruence ].

(** [store] reads the instance and never changes it, whether it completes
    or raises. *)
Theorem store_keeps_instance (w : World) :
  obj (snd (store w)) = obj w.
Proof.
  unfold store. run. repeat (split_match; run); reflexivity.
Qed.

(** Without a hardware engine and without a key, [store] raises at once:
    nothing is written or removed, not even for a certificate that is set. *)
Theorem store_without_key_raises (w : World) :
  Engine (obj w) = None ->
  PrivateKey (obj w) = None ->
  store w = (Raise AttributeError, w).
Proof.
  intros HE HK. unfold store. run. rewrite HE, HK. reflexivity.
Qed.

(** On a hardware engine [store] does not touch [itss.key], key or no key:
    the file is as it was and no event names it. *)
Theorem store_engine_skips_key (w : World) (engine : ENGINE) :
  Engine (obj w) = Some engine ->
  let key_path := path_join (Directory (obj w)) ["itss.key"] in
  fs (snd (store w)) !! key_path = fs w !! key_path /\
  exists evs,
    trace (snd (store w)) = trace w ++ evs /\
    forall data, ~ In (FileWrite key_path data) evs.
Proof.
  intros HE key_path. subst key_path. unfold store. run. rewrite HE. run.
  pose proof (key_path_ne_ec_path (Directory (obj w))) as Nke.
  pose proof (key_path_ne_at_path (Directory (obj w))) as Nka.
  repeat (split_match; run); split;
    skip_other_paths;
    try reflexivity;
    rewrite <- ?app_assoc; cbn [app]; eexists; (split; [reflexivity |]);
    intros data Hin; cbn [In] in Hin;
    repeat (destruct Hin as [Hin | Hin]; [congruence |]); exact Hin.
Qed.

(** With a software key, [store] leaves the encrypted key in [itss.key],
    also when it goes on to raise at a certificate. *)
Lemma store_key_file (w : World) (key : PrivKey) :
  Engine (obj w) = None ->
  PrivateKey (obj w) = Some key ->
  fs (snd (store w)) !! path_join (Directory (obj w)) ["itss.key"] =
    Some (private_bytes key password (entropy w)).
Proof.
  intros HE HK. unfold store. run. rewrite HE, HK. run.
  pose proof (key_path_ne_ec_path (Directory (obj w))) as Nke.
  pose proof (key_path_ne_at_path (Directory (obj w))) as Nka.
  repeat (split_match; run);
    skip_other_paths;
    apply lookup_insert_eq.
Qed.

(** [store] then [load]: what [store] leaves in the directory, a fresh
    software-key instance on the same directory loads back as the same key,
    the same EC and the same AT, unset ones included.  This needs that the
    key decodes from its own encoding and that each certificate is the
    certificate of its own raw bytes, and, for [store] to complete, that an
    unset certificate has a file to remove. *)
Theorem store_then_load (w : World) (key : PrivKey) (fresh : ITSS) :
  Engine (obj w) = None ->
  PrivateKey (obj w) = Some key ->
  load_der_private_key (private_bytes key password (entropy w)) password =
    Some key ->
  (forall c, EC (obj w) = Some c \/ AT (obj w) = Some c ->
             CITS103097v121Certificate (Data c) = Some c) ->
  (EC (obj w) = None ->
   fs w !! path_join (Directory (obj w)) ["itss.ec"] <> None) ->
  (AT (obj w) = None ->
   fs w !! path_join (Directory (obj w)) ["itss.at"] <> None) ->
  unloaded fresh = true ->
  Engine fresh = None ->
  Directory fresh = Directory (obj w) ->
  let r := load (with_obj fresh (snd (store w))) in
  fst (store w) = Return tt /\
  fst r = Return true /\
  PrivateKey (obj (snd r)) = Some key /\
  EC (obj (snd r)) = EC (obj w) /\
  AT (obj (snd r)) = AT (obj w).
Proof.
  intros HE HK Dk Dc Fe Fa Hu HEf Hd r. subst r.
  assert (Hs : key_storable (obj w) = true).
  { unfold key_storable. rewrite HK. apply orb_true_r. }
  destruct (store_writes_and_removes w Hs Fe Fa) as (Hr & Le & La).
  pose proof (store_key_file w key HE HK) as Lk.
  split; [exact Hr |].
  apply load_from_files; cbn [obj fs with_obj]; rewrite ?Hd; auto.
  - rewrite Lk. cbn [mbind option_bind]. exact Dk.
  - rewrite Le. destruct (EC (obj w)) as [c|] eqn:Hc;
      cbn [fmap option_fmap option_map]; [| reflexivity].
    split; [discriminate | apply Dc; auto].
  - rewrite La. destruct (AT (obj w)) as [c|] eqn:Hc;
      cbn [fmap option_fmap option_map]; [| reflexivity].
    split; [discriminate | apply Dc; auto].
Qed.

End StoreMore.

Section StoreMoreRuns.

#[local] Existing Instances Stub.backend Stub.codec Stub.transport
  Stub.messaging.

(** A software-key instance that holds certificates but no key. *)
Lemma store_without_key_raises_witness :
  let w := Stub.world_of (with_PrivateKey None Stub.full_obj) ∅ in
  store w = (Raise AttributeError, w).
Proof.
  exact (store_without_key_raises
           (Stub.world_of (with_PrivateKey None Stub.full_obj) ∅)
           eq_refl eq_refl).
Defined.

(** The instance on a hardware engine, over a directory with a key file:
    the file keeps its content. *)
Lemma store_engine_skips_key_witness :
  fs (snd (store (Stub.world_of Stub.hsm_obj Stub.good_files)))
    !! path_join "d" ["itss.key"] = Some [x07].
Proof.
  exact (proj1 (store_engine_skips_key
                  (Stub.world_of Stub.hsm_obj Stub.good_files) tt eq_refl)).
Defined.

(** The full instance stored into an empty directory and loaded back. *)
Lemma store_then_load_witness :
  let w := Stub.world_of Stub.full_obj ∅ in
  let r := load (with_obj Stub.fresh_obj (snd (store w))) in
  fst (store w) = Return tt /\
  fst r = Return true /\
  PrivateKey (obj (snd r)) = Some 7 /\
  EC (obj (snd r)) = Some Stub.cert_a /\
  AT (obj (snd r)) = Some Stub.cert_b.
Proof.
  assert (Dc : forall c,
             EC (obj (Stub.world_of Stub.full_obj ∅)) = Some c \/
             AT (obj (Stub.world_of Stub.full_obj ∅)) = Some c ->
             CITS103097v121Certificate (Data c) = Some c).
  { intros c [H | H]; injection H as <-; reflexivity. }
  assert (Fe : EC (obj (Stub.world_of Stub.full_obj ∅)) = None ->
               fs (Stub.world_of Stub.full_obj ∅)
                 !! path_join "d" ["itss.ec"] <> None).
  { intros H. discriminate H. }
  assert (Fa : AT (obj (Stub.world_of Stub.full_obj ∅)) = None ->
               fs (Stub.world_of Stub.full_obj ∅)
                 !! path_join "d" ["itss.at"] <> None).
  { intros H. discriminate H. }
  exact (store_then_load (Stub.world_of Stub.full_obj ∅) 7 Stub.fresh_obj
           eq_refl eq_refl eq_refl Dc Fe Fa eq_refl eq_refl eq_refl).
Defined.

End StoreMoreRuns.

(** ** [enroll] and [authorize]: the responses *)

Section Responses.

Context {SB : SigningBackend} {CL : CodecLayer} {TR : Transport}
        {SM : SecureMessaging}.

(** [enroll] on an instance without a key raises before anything is drawn,
    signed or sent: the world is as it was. *)
Theorem enroll_without_key_raises (w : World) :
  PrivateKey (obj w) = None ->
  enroll w = (Raise AttributeError, w).
Proof.
  intros HK. unfold enroll. run. rewrite HK. reflexivity.
Qed.

(** [authorize] needs the enrollment credential and the key: when either is
    missing it raises with nothing signed and nothing sent. *)
Theorem authorize_without_credentials_raises (w : World) :
  EC (obj w) = None \/ PrivateKey (obj w) = None ->
  authorize w = (Raise AttributeError, w).
Proof.
  intros H. unfold authorize. run.
  destruct (EC (obj w)) as [ec|]; run; [| reflexivity].
  destruct H as [H | H]; [discriminate |]. rewrite H. reflexivity.
Qed.

(** [enroll] changes one thing on the instance, EC, and that only when it
    returns; when it raises, exit included, the instance is as it was.  It
    never touches the files. *)
Theorem enroll_sets_EC_only (w : World) :
  fs (snd (enroll w)) = fs w /\
  match fst (enroll w) with
  | Return _ => exists cert, obj (snd (enroll w)) = with_EC (Some cert) (obj w)
  | Raise _ => obj (snd (enroll w)) = obj w
  end.
Proof.
  unfold enroll. run.
  repeat (split_match; run); split; try reflexivity; eexists; reflexivity.
Qed.

(** The same for [authorize] and AT. *)
Theorem authorize_sets_AT_only (w : World) :
  fs (snd (authorize w)) = fs w /\
  match fst (authorize w) with
  | Return _ => exists cert, obj (snd (authorize w)) = with_AT (Some cert) (obj w)
  | Raise _ => obj (snd (authorize w)) = obj w
  end.
Proof.
  unfold authorize. run.
  repeat (split_match; run); split; try reflexivity; eexists; reflexivity.
Qed.

(** When the authority answers [content] whatever it is sent, and [content]
    decodes to the variant [successfulEnrolment] whose root certificate
    parses as [cert], [enroll] returns and EC is [cert]. *)
Theorem enroll_accepted (w : World) (key : PrivKey) (content root : bytes)
    (resp : Response) (cert : Certificate) :
  PrivateKey (obj w) = Some key ->
  (forall body,
     http_put (EA_url (obj w) +:+ "/cits/ts_102941_v111/ea/enroll") body =
       Some content) ->
  decode_EnrolmentResponse content = Some resp ->
  variant resp = "successfulEnrolment" ->
  rootCertificate resp = Some root ->
  CITS103097v121Certificate root = Some cert ->
  fst (enroll w) = Return tt /\
  obj (snd (enroll w)) = with_EC (Some cert) (obj w).
Proof.
  intros HK Hp Hd Hv Hr Hc. unfold enroll. run. rewrite HK. run.
  rewrite Hp. run. rewrite Hd. run. rewrite Hv, String.eqb_refl.
  cbn [negb]. run. rewrite Hr. run. rewrite Hc. run. auto.
Qed.

(** Any other variant is fatal: [enroll] prints the failure and the decoded
    response and exits with status 1; EC and the rest of the instance are
    as they were. *)
Theorem enroll_rejected (w : World) (key : PrivKey) (content : bytes)
    (resp : Response) :
  PrivateKey (obj w) = Some key ->
  (forall body,
     http_put (EA_url (obj w) +:+ "/cits/ts_102941_v111/ea/enroll") body =
       Some content) ->
  decode_EnrolmentResponse content = Some resp ->
  variant resp <> "successfulEnrolment" ->
  fst (enroll w) = Raise (SystemExit 1) /\
  obj (snd (enroll w)) = obj w /\
  exists evs,
    trace (snd (enroll w)) =
      trace w ++ evs ++ [Print "Enrollment failed!"; PPrint resp].
Proof.
  intros HK Hp Hd Hv. unfold enroll. run. rewrite HK. run.
  rewrite Hp. run. rewrite Hd. run.
  apply String.eqb_neq in Hv. rewrite Hv. cbn [negb]. run.
  repeat split.
  rewrite <- !app_assoc. cbn [app].
  eexists [_; _]. reflexivity.
Qed.

(** [authorize] accepts the explicit and the implicit success variant
    alike: AT is then the root certificate of the response. *)
Theorem authorize_accepted (w : World) (key : PrivKey) (ec : Certificate)
    (content root : bytes) (resp : Response) (cert : Certificate) :
  PrivateKey (obj w) = Some key ->
  EC (obj w) = Some ec ->
  (forall body,
     http_put (AA_url (obj w) +:+ "/cits/ts_102941_v111/aa/approve") body =
       Some content) ->
  decode_AuthorizationResponse content = Some resp ->
  variant resp = "successfulExplicitAuthorization" \/
  variant resp = "successfulImplicitAuthorization" ->
  rootCertificate resp = Some root ->
  CITS103097v121Certificate root = Some cert ->
  fst (authorize w) = Return tt /\
  obj (snd (authorize w)) = with_AT (Some cert) (obj w).
Proof.
  intros HK HC Hp Hd Hv Hr Hc. unfold authorize. run. rewrite HC. run.
  rewrite HK. run. rewrite Hp. run. rewrite Hd. run.
  assert (Hok : negb (String.eqb (variant resp) "successfulExplicitAuthorization"
                      || String.eqb (variant resp) "successfulImplicitAuthorization")
                = false).
  { destruct Hv as [-> | ->]; reflexivity. }
  rewrite Hok. run. rewrite Hr. run. rewrite Hc. run. auto.
Qed.

(** Any variant other than these two is fatal: [authorize] prints the
    failure and the decoded response and exits with status 1, AT and the
    rest of the instance as they were. *)
Theorem authorize_rejected (w : World) (key : PrivKey) (ec : Certificate)
    (content : bytes) (resp : Response) :
  PrivateKey (obj w) = Some key ->
  EC (obj w) = Some ec ->
  (forall body,
     http_put (AA_url (obj w) +:+ "/cits/ts_102941_v111/aa/approve") body =
       Some content) ->
  decode_AuthorizationResponse content = Some resp ->
  variant resp <> "successfulExplicitAuthorization" ->
  variant resp <> "successfulImplicitAuthorization" ->
  fst (authorize w) = Raise (SystemExit 1) /\
  obj (snd (authorize w)) = obj w /\
  exists evs,
    trace (snd (authorize w)) =
      trace w ++ evs ++ [Print "Authorization failed!"; PPrint resp].
Proof.
  intros HK HC Hp Hd Hv1 Hv2. unfold authorize. run. rewrite HC. run.
  rewrite HK. run. rewrite Hp. run. rewrite Hd. run.
  apply String.eqb_neq in Hv1, Hv2. rewrite Hv1, Hv2. cbn [negb orb]. run.
  repeat split.
  rewrite <- !app_assoc. cbn [app].
  eexists [_; _]. reflexivity.
Qed.

End Responses.

Section ResponsesRuns.

#[local] Existing Instances Stub.backend Stub.codec Stub.transport
  Stub.messaging.

(** A fresh instance. *)
Lemma enroll_without_key_raises_witness :
  enroll (Stub.world_of Stub.fresh_obj ∅) =
    (Raise AttributeError, Stub.world_of Stub.fresh_obj ∅).
Proof.
  exact (enroll_without_key_raises (Stub.world_of Stub.fresh_obj ∅) eq_refl).
Defined.

(** An instance with a key and no enrollment credential. *)
Lemma authorize_without_credentials_raises_witness :
  authorize (Stub.world_of Stub.no_EC_obj ∅) =
    (Raise AttributeError, Stub.world_of Stub.no_EC_obj ∅).
Proof.
  exact (authorize_without_credentials_raises
           (Stub.world_of Stub.no_EC_obj ∅) (or_introl eq_refl)).
Defined.

(** An instance with a key only, against the authority that issues. *)
Lemma enroll_accepted_witness :
  let w := Stub.world_of StubStates.key_only_obj ∅ in
  fst (enroll w) = Return tt /\
  obj (snd (enroll w)) =
    with_EC (Some {| Data := blit "issued"; Digest := blit "i" |}) (obj w).
Proof.
  apply (enroll_accepted
           (Stub.world_of StubStates.key_only_obj ∅) 7
           (blit "issued") (blit "issued")
           {| variant := "successfulEnrolment";
              rootCertificate := Some (blit "issued") |}
           {| Data := blit "issued"; Digest := blit "i" |});
    intros; reflexivity.
Defined.

(** An instance with a key and an EC, against the authority that issues. *)
Lemma authorize_accepted_witness :
  let w := Stub.world_of StubStates.no_AT_obj ∅ in
  fst (authorize w) = Return tt /\
  obj (snd (authorize w)) =
    with_AT (Some {| Data := blit "issued"; Digest := blit "i" |}) (obj w).
Proof.
  apply (authorize_accepted
           (Stub.world_of StubStates.no_AT_obj ∅) 7 Stub.cert_a
           (blit "issued") (blit "issued")
           {| variant := "successfulExplicitAuthorization";
              rootCertificate := Some (blit "issued") |}
           {| Data := blit "issued"; Digest := blit "i" |});
    intros; try reflexivity.
  left. reflexivity.
Defined.

End ResponsesRuns.

Section RefusalRuns.

#[local] Existing Instances Stub.backend StubRefusing.codec Stub.transport
  Stub.messaging.

(** Against an authority that refuses, [enroll] exits and EC stays unset. *)
Lemma enroll_rejected_witness :
  let w := Stub.world_of StubStates.key_only_obj ∅ in
  fst (enroll w) = Raise (SystemExit 1) /\
  EC (obj (snd (enroll w))) = None.
Proof.
  cbv zeta.
  destruct (enroll_rejected
              (Stub.world_of StubStates.key_only_obj ∅) 7
              (blit "issued")
              {| variant := "unknownEaId"; rootCertificate := None |})
    as (Hx & Ho & _);
    [reflexivity | intros; reflexivity | reflexivity | discriminate |].
  split; [exact Hx | rewrite Ho; reflexivity].
Defined.

(** Against an authority that refuses, [authorize] exits and AT stays
    unset. *)
Lemma authorize_rejected_witness :
  let w := Stub.world_of StubStates.no_AT_obj ∅ in
  fst (authorize w) = Raise (SystemExit 1) /\
  AT (obj (snd (authorize w))) = None.
Proof.
  cbv zeta.
  destruct (authorize_rejected
              (Stub.world_of StubStates.no_AT_obj ∅) 7 Stub.cert_a
              (blit "issued")
              {| variant := "unknownAaId"; rootCertificate := None |})
    as (Hx & Ho & _);
    [reflexivity | reflexivity | intros; reflexivity | reflexivity
    | discriminate | discriminate |].
  split; [exact Hx | rewrite Ho; reflexivity].
Defined.

End RefusalRuns.

(** ** Names of the certificate files *)

Lemma unhex_byte_hex (c : byte) :
  unhex_byte (hex_digit (N.shiftr (Byte.to_N c) 4))
             (hex_digit (N.land (Byte.to_N c) 15)) = Some c.
Proof. destruct c; reflexivity. Qed.

Lemma hex_digit_is_digit (n : N) : unhex_digit (hex_digit n) <> None.
Proof.
  unfold hex_digit.
  repeat match goal with
         | |- context [match ?x with _ => _ end] => destruct x
         end; vm_compute; discriminate.
Qed.

(** The file name of a digest determines the digest. *)
Lemma hex_cert_inj (d1 d2 : bytes) :
  hex d1 +:+ ".cert" = hex d2 +:+ ".cert" -> d1 = d2.
Proof.
  revert d2. induction d1 as [| c1 r1 IH]; intros [| c2 r2]; cbn [hex];
    intros H.
  - reflexivity.
  - exfalso. injection H as H _.
    apply (hex_digit_is_digit (N.shiftr (Byte.to_N c2) 4)).
    rewrite <- H. reflexivity.
  - exfalso. injection H as H _.
    apply (hex_digit_is_digit (N.shiftr (Byte.to_N c1) 4)).
    rewrite H. reflexivity.
  - injection H as Hh Hl Hr.
    pose proof (unhex_byte_hex c1) as E1.
    pose proof (unhex_byte_hex c2) as E2.
    rewrite Hh, Hl, E2 in E1. injection E1 as <-.
    f_equal. exact (IH _ Hr).
Qed.

(** [bytes.hex] is one-to-one. *)
Theorem hex_inj (d1 d2 : bytes) : hex d1 = hex d2 -> d1 = d2.
Proof. intros H. apply hex_cert_inj. rewrite H. reflexivity. Qed.

Lemma hex_cert_relative (d : bytes) :
  startswith_sep (hex d +:+ ".cert") = false.
Proof.
  destruct d as [| c r]; [reflexivity |]. cbn [hex].
  pose proof (hex_digit_is_digit (N.shiftr (Byte.to_N c) 4)) as H.
  cbn. destruct (hex_digit (N.shiftr (Byte.to_N c) 4)) as [[] [] [] [] [] [] [] []];
    try reflexivity.
  exfalso. apply H. reflexivity.
Qed.

Lemma cert_fname_inj (dir : string) (d1 d2 : bytes) :
  path_join dir ["certs"; hex d1 +:+ ".cert"] =
  path_join dir ["certs"; hex d2 +:+ ".cert"] ->
  d1 = d2.
Proof.
  unfold path_join. cbn [fold_left]. unfold join2 at 1 3.
  rewrite !hex_cert_relative.
  destruct (String.eqb (join2 dir "certs") "" || endswith_sep (join2 dir "certs"))%bool;
    intros H; apply append_inj_r in H; try apply append_inj_r in H;
    exact (hex_cert_inj _ _ H).
Qed.

(** Two digests share a file under [certs] only when they are the same
    digest: the disk tier never answers one digest with the file of
    another. *)
Theorem certificate_path_inj (dir : string) (d1 d2 : bytes) :
  path_join dir ["certs"; hex d1 +:+ ".cert"] =
  path_join dir ["certs"; hex d2 +:+ ".cert"] ->
  d1 = d2.
Proof. exact (cert_fname_inj dir d1 d2). Qed.

(** ** The tiers of the resolver *)

Section Tiers.

Context {SB : SigningBackend} {CL : CodecLayer} {TR : Transport}
        {SM : SecureMessaging}.

(** Disk tier: a digest that is not in memory and whose file is there and
    parses is answered from the file.  The one event is the read, no request
    goes out, the files stay as they are, and the memory tier gains the
    entry. *)
Theorem resolve_from_disk (digest : bytes) (w : World) (data : bytes)
    (cert : Certificate) :
  Certs (obj w) !! digest = None ->
  let cert_fname :=
    path_join (Directory (obj w)) ["certs"; hex digest +:+ ".cert"] in
  fs w !! cert_fname = Some data ->
  CITS103097v121Certificate data = Some cert ->
  get_certificate_by_digest digest w =
    (Return cert,
     with_obj (with_Certs (<[digest := cert]> (Certs (obj w))) (obj w))
       (with_trace (trace w ++ [FileRead cert_fname]) w)).
Proof.
  intros Hm cert_fname Hf Hp. subst cert_fname.
  unfold get_certificate_by_digest. run. rewrite Hm. run. rewrite Hf. run.
  rewrite Hp. run. reflexivity.
Qed.

(** Remote tier: a digest that is neither in memory nor on disk is asked of
    the authorization authority at [/cits/digest/<hex>]; the certificate
    received enters the memory tier under the digest asked for and is
    written to disk under its own digest. *)
Theorem resolve_from_authority (digest : bytes) (w : World) (content : bytes)
    (cert : Certificate) :
  Certs (obj w) !! digest = None ->
  let dir := Directory (obj w) in
  let url := AA_url (obj w) +:+ "/cits/digest/" +:+ hex digest in
  fs w !! path_join dir ["certs"; hex digest +:+ ".cert"] = None ->
  http_get url = Some content ->
  CITS103097v121Certificate content = Some cert ->
  let r := get_certificate_by_digest digest w in
  let written := path_join dir ["certs"; hex (Digest cert) +:+ ".cert"] in
  fst r = Return cert /\
  obj (snd r) = with_Certs (<[digest := cert]> (Certs (obj w))) (obj w) /\
  fs (snd r) = <[written := Data cert]> (fs w) /\
  trace (snd r) =
    trace w ++
    [FileRead (path_join dir ["certs"; hex digest +:+ ".cert"]);
     HttpGet url; FileWrite written (Data cert)].
Proof.
  intros Hm dir url Hf Hg Hp r written. subst dir url r written.
  unfold get_certificate_by_digest, store_certificate. run.
  rewrite Hm. run. rewrite Hf. run. rewrite Hg. run. rewrite Hp. run.
  rewrite <- !app_assoc. auto.
Qed.

(** When the authority answers with a certificate whose digest is not the
    one asked for, the file written is not the one the disk tier looks up
    for that digest: on disk the digest is still unresolved. *)
Theorem resolve_mismatch_not_on_disk (digest : bytes) (w : World)
    (content : bytes) (cert : Certificate) :
  Certs (obj w) !! digest = None ->
  let cert_fname :=
    path_join (Directory (obj w)) ["certs"; hex digest +:+ ".cert"] in
  fs w !! cert_fname = None ->
  http_get (AA_url (obj w) +:+ "/cits/digest/" +:+ hex digest) = Some content ->
  CITS103097v121Certificate content = Some cert ->
  Digest cert <> digest ->
  fs (snd (get_certificate_by_digest digest w)) !! cert_fname = None.
Proof.
  intros Hm cert_fname Hf Hg Hp Hne. subst cert_fname.
  unfold get_certificate_by_digest, store_certificate. run.
  rewrite Hm. run. rewrite Hf. run. rewrite Hg. run. rewrite Hp. run.
  rewrite lookup_insert_ne; [exact Hf |].
  intros H. apply cert_fname_inj in H. contradiction.
Qed.

(** A resolution that raises has changed neither the instance, its memory
    tier included, nor the files. *)
Theorem resolve_failure_changes_nothing (digest : bytes) (w w' : World)
    (e : exn) :
  get_certificate_by_digest digest w = (Raise e, w') ->
  obj w' = obj w /\ fs w' = fs w.
Proof.
  unfold get_certificate_by_digest, store_certificate. run.
  repeat (split_match; run); intros [= <- <-]; run; auto.
Qed.

(** On the instance the resolver touches the memory tier and nothing else:
    key, EC, AT and the rest are as they were. *)
Lemma resolve_touches_Certs_only (digest : bytes) (w : World) :
  obj (snd (get_certificate_by_digest digest w)) =
    with_Certs (Certs (obj (snd (get_certificate_by_digest digest w)))) (obj w).
Proof.
  unfold get_certificate_by_digest, store_certificate. run.
  repeat (split_match; run); destruct (obj w); reflexivity.
Qed.

Lemma resolve_keeps_entry (digest other : bytes) (w : World)
    (cert : Certificate) :
  Certs (obj w) !! other = Some cert ->
  Certs (obj (snd (get_certificate_by_digest digest w))) !! other = Some cert.
Proof.
  intros Ho.
  destruct (decide (digest = other)) as [-> | Hne].
  - rewrite (get_certificate_by_digest_hit other w cert Ho). exact Ho.
  - unfold get_certificate_by_digest, store_certificate. run.
    repeat (split_match; run); rewrite ?lookup_insert_ne by exact Hne;
      exact Ho.
Qed.

(** No eviction, no overwriting: an entry of the memory tier is still there,
    with the same certificate, after any resolution, of any digest, whatever
    its outcome. *)
Theorem resolve_keeps_entries (digest other : bytes) (w : World)
    (cert : Certificate) :
  Certs (obj w) !! other = Some cert ->
  Certs (obj (snd (get_certificate_by_digest digest w))) !! other = Some cert.
Proof. exact (resolve_keeps_entry digest other w cert). Qed.

(** What [store_certificate] writes, the disk tier reads back: a later
    resolution of the certificate's digest with an empty memory tier is
    answered by the file, without a request, provided the certificate is the
    certificate of its own raw bytes. *)
Theorem store_certificate_then_resolve (w : World) (cert : Certificate) :
  Certs (obj w) !! Digest cert = None ->
  CITS103097v121Certificate (Data cert) = Some cert ->
  let w1 := snd (store_certificate cert w) in
  let r := get_certificate_by_digest (Digest cert) w1 in
  fst r = Return cert /\
  trace (snd r) =
    trace w1 ++
    [FileRead (path_join (Directory (obj w))
                 ["certs"; hex (Digest cert) +:+ ".cert"])] /\
  fs (snd r) = fs w1.
Proof.
  intros Hm Hp w1 r. subst r w1.
  unfold get_certificate_by_digest, store_certificate. run.
  rewrite Hm. run. rewrite lookup_insert_eq. run. rewrite Hp. run.
  auto.
Qed.

End Tiers.

Section TiersRuns.

#[local] Existing Instances Stub.backend Stub.codec Stub.transport
  Stub.messaging.

(** Two one-byte digests with the same text. *)
Lemma hex_inj_witness : hex [x0a] = hex [x0a] /\ [x0a] = [x0a].
Proof.
  split; [reflexivity |]. exact (hex_inj [x0a] [x0a] eq_refl).
Defined.

(** The same at the level of file names. *)
Lemma certificate_path_inj_witness :
  path_join "d" ["certs"; hex [x0a] +:+ ".cert"] = "d/certs/0a.cert" /\
  [x0a] = [x0a].
Proof.
  split; [reflexivity |].
  exact (certificate_path_inj "d" [x0a] [x0a] eq_refl).
Defined.

(** Digest [a] from the file [d/certs/61.cert]. *)
Lemma resolve_from_disk_witness :
  let w := Stub.world_of Stub.full_obj StubStates.disk_files in
  get_certificate_by_digest (blit "a") w =
    (Return Stub.cert_a,
     with_obj (with_Certs (<[blit "a" := Stub.cert_a]> ∅) Stub.full_obj)
       (with_trace [FileRead "d/certs/61.cert"] w)).
Proof.
  exact (resolve_from_disk (blit "a")
           (Stub.world_of Stub.full_obj StubStates.disk_files)
           (blit "a-cert") Stub.cert_a eq_refl eq_refl eq_refl).
Defined.

(** Digest [r] from the authority, over an empty store. *)
Lemma resolve_from_authority_witness :
  let r := get_certificate_by_digest (blit "r") (Stub.world_of Stub.full_obj ∅) in
  let cert := {| Data := blit "remote"; Digest := blit "r" |} in
  fst r = Return cert /\
  Certs (obj (snd r)) !! blit "r" = Some cert /\
  fs (snd r) !! "d/certs/72.cert" = Some (blit "remote") /\
  trace (snd r) =
    [FileRead "d/certs/72.cert"; HttpGet "http://aa/cits/digest/72";
     FileWrite "d/certs/72.cert" (blit "remote")].
Proof.
  cbv zeta.
  destruct (resolve_from_authority (blit "r")
              (Stub.world_of Stub.full_obj ∅) (blit "remote")
              {| Data := blit "remote"; Digest := blit "r" |})
    as (H1 & H2 & H3 & H4); [reflexivity .. |].
  split; [exact H1 |]. split; [rewrite H2; reflexivity |].
  split; [rewrite H3; reflexivity | exact H4].
Defined.

(** Digest [q], answered by the authority with the certificate of digest
    [r]: the file [d/certs/71.cert] is still missing. *)
Lemma resolve_mismatch_not_on_disk_witness :
  fs (snd (get_certificate_by_digest (blit "q") (Stub.world_of Stub.full_obj ∅)))
    !! path_join "d" ["certs"; hex (blit "q") +:+ ".cert"] = None.
Proof.
  apply (resolve_mismatch_not_on_disk (blit "q")
           (Stub.world_of Stub.full_obj ∅) (blit "remote")
           {| Data := blit "remote"; Digest := blit "r" |});
    try reflexivity.
  discriminate.
Defined.

(** Digest [a] over a store whose file for it is empty. *)
Lemma resolve_failure_changes_nothing_witness :
  let w := Stub.world_of Stub.full_obj StubStates.bad_disk_files in
  fst (get_certificate_by_digest (blit "a") w) = Raise CertificateError /\
  obj (snd (get_certificate_by_digest (blit "a") w)) = obj w /\
  fs (snd (get_certificate_by_digest (blit "a") w)) = fs w.
Proof.
  cbv zeta. split; [reflexivity |].
  exact (resolve_failure_changes_nothing (blit "a")
           (Stub.world_of Stub.full_obj StubStates.bad_disk_files) _
           CertificateError eq_refl).
Defined.

(** The entry for [a] after digest [r] has been fetched. *)
Lemma resolve_keeps_entries_witness :
  Certs (obj (snd (get_certificate_by_digest (blit "r")
                     (Stub.world_of StubStates.cached_obj ∅))))
    !! blit "a" = Some Stub.cert_a.
Proof.
  exact (resolve_keeps_entries (blit "r") (blit "a")
           (Stub.world_of StubStates.cached_obj ∅) Stub.cert_a eq_refl).
Defined.

(** The certificate [cert_a] stored, then resolved. *)
Lemma store_certificate_then_resolve_witness :
  let w1 := snd (store_certificate Stub.cert_a (Stub.world_of Stub.full_obj ∅)) in
  let r := get_certificate_by_digest (blit "a") w1 in
  fst r = Return Stub.cert_a /\
  trace (snd r) = trace w1 ++ [FileRead "d/certs/61.cert"] /\
  fs (snd r) = fs w1.
Proof.
  exact (store_certificate_then_resolve (Stub.world_of Stub.full_obj ∅)
           Stub.cert_a eq_refl eq_refl).
Defined.

End TiersRuns.

(** ** The inbound handler, further *)

Section InboundMore.

Context {SB : SigningBackend} {CL : CodecLayer} {TR : Transport}
        {SM : SecureMessaging}.

(** A datagram that does not parse as a secure message changes nothing:
    the handler logs the error on the world it found and returns. *)
Theorem datagram_received_malformed_logged (data : bytes) (w : World) :
  CITS103097v121SecureMessage data = None ->
  datagram_received data w =
    (Return tt,
     with_trace
       (trace w ++ [Print "Error when processing message"; PrintExc MessageError])
       w).
Proof.
  intros Hp. unfold datagram_received, report_error, process_datagram. run.
  rewrite Hp. run. rewrite <- app_assoc. reflexivity.
Qed.

Lemma with_Certs_same (o : ITSS) : o = with_Certs (Certs o) o.
Proof. destruct o; reflexivity. Qed.

(** Whatever arrives, the handler leaves the key, EC and AT of the instance
    alone: the instance after it differs from the one before at most in the
    memory tier of certificates, and there no entry is lost or replaced. *)
Theorem datagram_received_keeps_identity (data : bytes) (w : World) :
  let w' := snd (datagram_received data w) in
  obj w' = with_Certs (Certs (obj w')) (obj w) /\
  forall digest cert,
    Certs (obj w) !! digest = Some cert ->
    Certs (obj w') !! digest = Some cert.
Proof.
  cbv zeta.
  unfold datagram_received, report_error, process_datagram, verify. run.
  destruct (CITS103097v121SecureMessage data) as [msg|]; run;
    [| split; [apply with_Certs_same | auto]].
  destruct (signer_digest msg) as [digest|]; run;
    [| split; [apply with_Certs_same | auto]].
  pose proof (resolve_touches_Certs_only digest w) as Ht.
  pose proof (fun other cert => resolve_keeps_entry digest other w cert) as Hk.
  destruct (get_certificate_by_digest digest w) as [[cert | e] w1] eqn:Hg;
    cbn [snd] in Ht, Hk.
  - destruct (signature_valid msg cert); run; split; auto.
  - rewrite (get_certificate_by_digest_raises_Exception _ _ _ _ Hg). run.
    split; auto.
Qed.

(** A datagram that was verified and reported is, when it arrives again,
    reported again from the memory tier alone: the second handling adds the
    report to the trace and nothing else, no file access and no request. *)
Theorem datagram_received_again (data : bytes) (w w1 : World) :
  process_datagram data w = (Return tt, w1) ->
  exists payload signer,
    (exists before, trace w1 = before ++ [PrintVerified payload signer]) /\
    datagram_received data w1 =
      (Return tt, with_trace (trace w1 ++ [PrintVerified payload signer]) w1).
Proof.
  unfold datagram_received, process_datagram, verify. run.
  destruct (CITS103097v121SecureMessage data) as [msg|]; run;
    [| discriminate].
  destruct (signer_digest msg) as [digest|]; run; [| discriminate].
  destruct (get_certificate_by_digest digest w) as [[cert | e] w0] eqn:Hg;
    [| discriminate].
  destruct (signature_valid msg cert) eqn:Hv; run; [| discriminate].
  intros [= <-]. exists (Payload msg), cert. split; [eexists; reflexivity |].
  apply get_certificate_by_digest_populates in Hg.
  rewrite (get_certificate_by_digest_hit digest
             (with_trace (trace w0 ++ [PrintVerified (Payload msg) cert]) w0)
             cert Hg).
  rewrite Hv. run. reflexivity.
Qed.

(** The signer certificate is resolved, and kept, before the signature is
    checked: when the check fails the handler logs the error, and the
    certificate stays in the memory tier under the claimed digest. *)
Theorem unverified_signer_stays_cached (data : bytes) (w w1 : World)
    (msg : SecureMessage) (digest : bytes) (cert : Certificate) :
  CITS103097v121SecureMessage data = Some msg ->
  signer_digest msg = Some digest ->
  get_certificate_by_digest digest w = (Return cert, w1) ->
  signature_valid msg cert = false ->
  datagram_received data w =
    (Return tt,
     with_trace
       (trace w1 ++ [Print "Error when processing message"; PrintExc MessageError])
       w1) /\
  Certs (obj w1) !! digest = Some cert.
Proof.
  intros Hp Hd Hg Hv. split.
  - unfold datagram_received, report_error, process_datagram, verify. run.
    rewrite Hp. run. rewrite Hd. run. rewrite Hg. rewrite Hv. run.
    rewrite <- app_assoc. reflexivity.
  - exact (get_certificate_by_digest_populates _ _ _ _ Hg).
Qed.

End InboundMore.

Section InboundMoreRuns.

#[local] Existing Instances Stub.backend Stub.codec Stub.transport
  Stub.messaging.

(** The empty datagram. *)
Lemma datagram_received_malformed_logged_witness :
  let w := Stub.world_of Stub.full_obj ∅ in
  datagram_received [] w =
    (Return tt,
     with_trace
       ([] ++ [Print "Error when processing message"; PrintExc MessageError])
       w).
Proof.
  exact (datagram_received_malformed_logged []
           (Stub.world_of Stub.full_obj ∅) eq_refl).
Defined.

(** The datagram [rx], whose signer [r] the authority knows, twice. *)
Lemma datagram_received_again_witness :
  let w1 := snd (process_datagram (blit "rx") (Stub.world_of Stub.full_obj ∅)) in
  exists payload signer,
    datagram_received (blit "rx") w1 =
      (Return tt, with_trace (trace w1 ++ [PrintVerified payload signer]) w1).
Proof.
  cbv zeta.
  destruct (datagram_received_again (blit "rx")
              (Stub.world_of Stub.full_obj ∅)
              (snd (process_datagram (blit "rx") (Stub.world_of Stub.full_obj ∅))))
    as (payload & signer & _ & H); [reflexivity |].
  exists payload, signer. exact H.
Defined.

End InboundMoreRuns.

Section ForgedRuns.

#[local] Existing Instances Stub.backend Stub.codec Stub.transport
  StubForged.messaging.

(** The datagram [rx] when its signature does not verify: the certificate
    of [r] was fetched and is kept. *)
Lemma unverified_signer_stays_cached_witness :
  let w := Stub.world_of Stub.full_obj ∅ in
  let w1 := snd (get_certificate_by_digest (blit "r") w) in
  datagram_received (blit "rx") w =
    (Return tt,
     with_trace
       (trace w1 ++ [Print "Error when processing message"; PrintExc MessageError])
       w1) /\
  Certs (obj w1) !! blit "r" =
    Some {| Data := blit "remote"; Digest := blit "r" |}.
Proof.
  cbv zeta.
  apply (@unverified_signer_stays_cached Stub.backend Stub.codec
           Stub.transport StubForged.messaging (blit "rx")
           (Stub.world_of Stub.full_obj ∅) _ (blit "rx") (blit "r")
           {| Data := blit "remote"; Digest := blit "r" |});
    reflexivity.
Defined.

End ForgedRuns.

(** ** The start-up sequence *)

Section Bootstrap.

Context {SB : SigningBackend} {CL : CodecLayer} {TR : Transport}
        {SM : SecureMessaging} {CI : CertificateIdentity}.

(** A [generate_private_key] that returned ran without an engine, left the
    files alone and set a key, clearing EC and AT. *)
Lemma generate_private_key_returns (w w' : World) :
  generate_private_key w = (Return tt, w') ->
  Engine (obj w) = None /\ fs w' = fs w /\
  exists key,
    obj w' = with_AT None (with_EC None (with_PrivateKey (Some key) (obj w))).
Proof.
  unfold generate_private_key. run.
  destruct (Engine (obj w)); run; [discriminate |].
  intros [= <-]. run. repeat split. eexists. reflexivity.
Qed.

(** An [enroll] that returned has set EC and nothing else. *)
Lemma enroll_returns (w w' : World) :
  enroll w = (Return tt, w') ->
  fs w' = fs w /\ exists cert, obj w' = with_EC (Some cert) (obj w).
Proof.
  unfold enroll. run.
  repeat (split_match; run); intros [= <-]; run; split; try reflexivity;
    eexists; reflexivity.
Qed.

(** An [authorize] that returned has set AT and nothing else. *)
Lemma authorize_returns (w w' : World) :
  authorize w = (Return tt, w') ->
  fs w' = fs w /\ exists cert, obj w' = with_AT (Some cert) (obj w).
Proof.
  unfold authorize. run.
  repeat (split_match; run); intros [= <-]; run; split; try reflexivity;
    eexists; reflexivity.
Qed.

(** [store] hands back the instance it was given. *)
Lemma store_returns (w w' : World) (o : outcome unit) :
  store w = (o, w') -> obj w' = obj w.
Proof.
  unfold store. run.
  repeat (split_match; run); intros [= _ <-]; reflexivity.
Qed.

Ltac run_in H := autounfold with py in H; cbn [fst snd obj fs clock entropy trace
  with_obj with_fs with_trace with_entropy PrivateKey EC AT Directory AA_url
  EA_url Certs Engine P11URI with_PrivateKey with_EC with_AT with_Certs
  with_P11URI is_None negb] in H.

Ltac split_match_in H :=
  match type of H with
  | context [match ?x with _ => _ end] =>
      lazymatch x with
      | context [match _ with _ => _ end] => fail
      | _ => destruct x eqn:?
      end
  end.

(** Follows a run of [main_bootstrap] that returned through its calls. *)
Ltac follow H :=
  unfold main_bootstrap in H; run_in H;
  repeat (split_match_in H; run_in H; try discriminate H);
  injection H as <-;
  repeat match goal with
         | u : unit |- _ => destruct u
         | Hb : negb ?a = _ |- _ => destruct a; try discriminate Hb; clear Hb
         | Hb : is_None ?o = _ |- _ =>
             destruct o eqn:?; try discriminate Hb; clear Hb
         end;
  repeat match goal with
         | Hx : load _ = (Return true, _) |- _ =>
             apply load_true_sets_key in Hx
         | Hx : generate_private_key _ = (Return _, _) |- _ =>
             apply generate_private_key_returns in Hx;
             destruct Hx as (? & ? & ? & ?)
         | Hx : enroll _ = (Return _, _) |- _ =>
             apply enroll_returns in Hx; destruct Hx as (? & ? & ?)
         | Hx : authorize _ = (Return _, _) |- _ =>
             apply authorize_returns in Hx; destruct Hx as (? & ? & ?)
         end.

(** Rewrites the instance of a later world as the updates made to that of
    an earlier one. *)
Ltac trace_back :=
  cbn [obj with_trace];
  repeat match goal with
         | Ho : obj ?w = _ |- context [obj ?w] =>
             rewrite Ho;
             cbn [PrivateKey EC AT with_PrivateKey with_EC with_AT]
         end.

(** When the start-up sequence of [main] gets through, the instance holds
    a key, an enrollment credential and an authorization ticket: the event
    loop and the periodic sender never see an unset AT or key. *)
Lemma load_false_keeps_instance (w w' : World) :
  load w = (Return false, w') -> obj w' = obj w.
Proof.
  unfold load, load_key, load_certificate. run.
  repeat (split_match; run); intros [= <-]; reflexivity.
Qed.

Theorem main_bootstrap_ready (w w' : World) :
  main_bootstrap w = (Return tt, w') ->
  PrivateKey (obj w') <> None /\ EC (obj w') <> None /\ AT (obj w') <> None.
Proof.
  intros H. follow H;
    repeat match goal with
           | Hx : store _ = (Return _, _) |- _ =>
               apply store_returns in Hx
           end;
    repeat split; cbn [obj with_trace];
    first [congruence | trace_back; congruence].
Qed.

(** A start over a directory from which [load] restores the key, EC and
    AT does nothing more than print the two lines: no key is generated, no
    authority is contacted and [store] is not called; with [load] only
    reading, the directory is left as found. *)
Theorem main_bootstrap_from_store (w w1 : World) (ec at_ : Certificate) :
  load w = (Return true, w1) ->
  EC (obj w1) = Some ec ->
  AT (obj w1) = Some at_ ->
  main_bootstrap w =
    (Return tt,
     with_trace
       (trace w1 ++
        [Print ("ITS-S identity: " +:+ identity ec);
         Print ("AT digest: " +:+ hex (Digest at_))]) w1).
Proof.
  intros Hl HC HA. unfold main_bootstrap. run. rewrite Hl. cbn [negb]. run.
  rewrite HC. run. rewrite HA. run. rewrite HC, HA. run.
  rewrite <- app_assoc. reflexivity.
Qed.

(** Enrollment comes before everything after it: when the key is loaded,
    EC is missing and [enroll] raises (a refusal exits), the start-up ends
    there, in the world [enroll] left: no authorization is attempted and
    nothing is stored. *)
Theorem main_bootstrap_stops_at_enroll (w w1 w2 : World) (e : exn) :
  load w = (Return true, w1) ->
  EC (obj w1) = None ->
  enroll w1 = (Raise e, w2) ->
  main_bootstrap w = (Raise e, w2).
Proof.
  intros Hl HC He. unfold main_bootstrap. run. rewrite Hl. cbn [negb]. run.
  rewrite HC. run. rewrite He. reflexivity.
Qed.

(** [load] leaves the files as they are. *)
Lemma load_keeps_files (w : World) : fs (snd (load w)) = fs w.
Proof.
  unfold load, load_key, load_certificate. run.
  repeat (split_match; run); reflexivity.
Qed.

(** [load] changes neither the directory nor the engine of the instance. *)
Lemma load_keeps_configuration (w : World) :
  Directory (obj (snd (load w))) = Directory (obj w) /\
  Engine (obj (snd (load w))) = Engine (obj w).
Proof.
  unfold load, load_key, load_certificate. run.
  repeat (split_match; run); split;
    first [reflexivity | assumption | congruence].
Qed.

(** What a [store] that returned has left, for an instance holding both
    certificates: their raw bytes in their files, and the key file written
    without an engine, untouched with one. *)
Lemma store_returned_files (w w' : World) (ec at_ : Certificate) :
  store w = (Return tt, w') ->
  EC (obj w) = Some ec ->
  AT (obj w) = Some at_ ->
  let dir := Directory (obj w) in
  obj w' = obj w /\
  fs w' !! path_join dir ["itss.ec"] = Some (Data ec) /\
  fs w' !! path_join dir ["itss.at"] = Some (Data at_) /\
  match Engine (obj w) with
  | None => fs w' !! path_join dir ["itss.key"] <> None
  | Some _ => fs w' !! path_join dir ["itss.key"] = fs w !! path_join dir ["itss.key"]
  end.
Proof.
  intros H HC HA dir. subst dir. revert H. unfold store. run.
  rewrite HC, HA.
  pose proof (key_path_ne_ec_path (Directory (obj w))) as Nke.
  pose proof (key_path_ne_at_path (Directory (obj w))) as Nka.
  pose proof (ec_path_ne_at_path (Directory (obj w))) as Nea.
  destruct (Engine (obj w)) as [engine|]; run.
  - intros [= <-]. run. repeat split.
    + rewrite lookup_insert_ne by congruence. apply lookup_insert_eq.
    + apply lookup_insert_eq.
    + rewrite !lookup_insert_ne by congruence. reflexivity.
  - destruct (PrivateKey (obj w)) as [key|]; run; [| discriminate].
    intros [= <-]. run. repeat split.
    + rewrite lookup_insert_ne by congruence. apply lookup_insert_eq.
    + apply lookup_insert_eq.
    + rewrite !lookup_insert_ne by congruence. rewrite lookup_insert_eq.
      discriminate.
Qed.


(** A start that had something to acquire (no usable key, or no EC, or no
    AT after [load]) and that gets through has stored: [itss.ec] and
    [itss.at] then hold the raw bytes of the very EC and AT that the
    instance holds.  Without an engine a key file is there too; with an
    engine, as [__init__] sets one, [itss.key] is as it was. *)
Theorem main_bootstrap_persists (w w1 w' : World) (ok : bool) :
  load w = (Return ok, w1) ->
  ok = false \/ EC (obj w1) = None \/ AT (obj w1) = None ->
  main_bootstrap w = (Return tt, w') ->
  let dir := Directory (obj w) in
  exists ec at_,
    EC (obj w') = Some ec /\ AT (obj w') = Some at_ /\
    fs w' !! path_join dir ["itss.ec"] = Some (Data ec) /\
    fs w' !! path_join dir ["itss.at"] = Some (Data at_) /\
    match Engine (obj w) with
    | None => fs w' !! path_join dir ["itss.key"] <> None
    | Some _ =>
        fs w' !! path_join dir ["itss.key"] = fs w !! path_join dir ["itss.key"]
    end.
Proof.
  intros Hl Hneed H dir. subst dir.
  pose proof (load_keeps_files w) as Hfs.
  pose proof (load_keeps_configuration w) as (Hdir & Heng).
  rewrite Hl in Hfs, Hdir, Heng. cbn [snd] in Hfs, Hdir, Heng.
  rewrite <- Hfs, <- Hdir, <- Heng. clear Hfs Hdir Heng.
  unfold main_bootstrap in H. run_in H. rewrite Hl in H. run_in H.
  repeat (split_match_in H; run_in H; try discriminate H).
  all: injection H as <-.
  all: repeat match goal with
         | u : unit |- _ => destruct u
         | Hb : negb ?c = _ |- _ => destruct c; try discriminate Hb; clear Hb
         | Hb : is_None ?o = _ |- _ =>
             destruct o eqn:?; try discriminate Hb; clear Hb
         end.
  all: try (exfalso; destruct Hneed as [Hn | [Hn | Hn]]; congruence).
  all: repeat match goal with
         | Hx : generate_private_key _ = (Return _, _) |- _ =>
             apply generate_private_key_returns in Hx;
             destruct Hx as (? & ? & ? & ?)
         | Hx : enroll _ = (Return _, _) |- _ =>
             apply enroll_returns in Hx; destruct Hx as (? & ? & ?)
         | Hx : authorize _ = (Return _, _) |- _ =>
             apply authorize_returns in Hx; destruct Hx as (? & ? & ?)
         end.
  all: cbn [obj fs with_trace].
  all: match goal with
       | Hst : store ?wS = (Return tt, ?wF),
         HEC : EC (obj ?wF) = Some ?c,
         HAT : AT (obj ?wF) = Some ?c0 |- _ =>
           pose proof (store_returns _ _ _ Hst) as Ho;
           exists c, c0; split; [exact HEC |]; split; [exact HAT |];
           rewrite Ho in HEC, HAT;
           destruct (store_returned_files wS wF c c0 Hst HEC HAT)
             as (_ & Le & La & Lk);
           assert (HD : Directory (obj wS) = Directory (obj w1))
             by (repeat match goal with
                        | Hq : obj ?v = _ |- context [obj ?v] =>
                            rewrite Hq; cbn [Directory with_EC with_AT with_PrivateKey]
                        end; reflexivity);
           assert (HN : Engine (obj wS) = Engine (obj w1))
             by (repeat match goal with
                        | Hq : obj ?v = _ |- context [obj ?v] =>
                            rewrite Hq; cbn [Engine with_EC with_AT with_PrivateKey]
                        end; reflexivity);
           assert (HF : fs wS = fs w1) by congruence;
           rewrite HD in Le, La, Lk; rewrite HN, HF in Lk;
           auto
       end.
Qed.

End Bootstrap.

Section BootstrapRuns.

#[local] Existing Instances Stub.backend Stub.codec Stub.transport
  Stub.messaging StubMain.naming.

(** A first start over an empty directory, against authorities that
    issue. *)
Lemma main_bootstrap_ready_witness :
  let r := main_bootstrap (Stub.world_of Stub.fresh_obj ∅) in
  fst r = Return tt /\
  PrivateKey (obj (snd r)) <> None /\
  EC (obj (snd r)) <> None /\
  AT (obj (snd r)) <> None.
Proof.
  cbv zeta. split; [vm_compute; reflexivity |].
  apply (main_bootstrap_ready (Stub.world_of Stub.fresh_obj ∅)).
  vm_compute. reflexivity.
Defined.

(** A start over the directory that holds everything. *)
Lemma main_bootstrap_from_store_witness :
  let w := Stub.world_of Stub.fresh_obj Stub.good_files in
  trace (snd (main_bootstrap w)) =
    trace (snd (load w)) ++
    [Print "ITS-S identity: 61"; Print "AT digest: 62"] /\
  fs (snd (main_bootstrap w)) = Stub.good_files.
Proof.
  cbv zeta.
  assert (Hl : load (Stub.world_of Stub.fresh_obj Stub.good_files) =
               (Return true,
                snd (load (Stub.world_of Stub.fresh_obj Stub.good_files))))
    by (vm_compute; reflexivity).
  assert (HC : EC (obj (snd (load (Stub.world_of Stub.fresh_obj Stub.good_files))))
               = Some Stub.cert_a) by (vm_compute; reflexivity).
  assert (HA : AT (obj (snd (load (Stub.world_of Stub.fresh_obj Stub.good_files))))
               = Some Stub.cert_b) by (vm_compute; reflexivity).
  rewrite (main_bootstrap_from_store _ _ _ _ Hl HC HA).
  split; vm_compute; reflexivity.
Defined.

(** A first start on an engine that holds the key, over an empty
    directory, and a first start without an engine. *)
Lemma main_bootstrap_persists_witness :
  (let w' := snd (main_bootstrap (StubHsm.world_of StubHsm.fresh_obj ∅)) in
   exists ec at_,
     EC (obj w') = Some ec /\ AT (obj w') = Some at_ /\
     fs w' !! path_join "d" ["itss.ec"] = Some (Data ec) /\
     fs w' !! path_join "d" ["itss.at"] = Some (Data at_) /\
     fs w' !! path_join "d" ["itss.key"] =
       (∅ : gmap string bytes) !! path_join "d" ["itss.key"]) /\
  (let w' := snd (main_bootstrap (Stub.world_of Stub.fresh_obj ∅)) in
   exists ec at_,
     EC (obj w') = Some ec /\ AT (obj w') = Some at_ /\
     fs w' !! path_join "d" ["itss.ec"] = Some (Data ec) /\
     fs w' !! path_join "d" ["itss.at"] = Some (Data at_) /\
     fs w' !! path_join "d" ["itss.key"] <> None).
Proof.
  split; cbv zeta.
  - apply (main_bootstrap_persists (StubHsm.world_of StubHsm.fresh_obj ∅)
             (snd (load (StubHsm.world_of StubHsm.fresh_obj ∅))) _ true);
      [ vm_compute; reflexivity
      | right; left; vm_compute; reflexivity
      | vm_compute; reflexivity ].
  - apply (main_bootstrap_persists (Stub.world_of Stub.fresh_obj ∅)
             (snd (load (Stub.world_of Stub.fresh_obj ∅))) _ false);
      [ vm_compute; reflexivity
      | left; reflexivity
      | vm_compute; reflexivity ].
Defined.

End BootstrapRuns.

Section BootstrapRefusedRuns.

#[local] Existing Instances Stub.backend StubRefusing.codec Stub.transport
  Stub.messaging StubMain.naming.

(** A start with a key on disk and no EC, against an authority that
    refuses: the run exits at the enrollment, after one request. *)
Lemma main_bootstrap_stops_at_enroll_witness :
  let w := Stub.world_of Stub.fresh_obj (<["d/itss.key" := [x07]]> ∅) in
  main_bootstrap w =
    (Raise (SystemExit 1), snd (enroll (snd (load w)))).
Proof.
  cbv zeta.
  apply (main_bootstrap_stops_at_enroll
           (Stub.world_of Stub.fresh_obj (<["d/itss.key" := [x07]]> ∅))
           (snd (load (Stub.world_of Stub.fresh_obj
                         (<["d/itss.key" := [x07]]> ∅)))));
    vm_compute; reflexivity.
Defined.

End BootstrapRefusedRuns.
